(** * File classification and validation of the medical file viewer

    A shallow embedding of [FileHandler.ts], of the two exported helpers of
    [VideoPlayer.tsx] ([fileToImageId], [isDicomVideo]) and of the upload
    handlers of [App.tsx], followed by the properties of the classifier, of
    the validator and of the upload state machine. *)

From Stdlib Require Import List Bool Arith NArith ZArith Lia.
From Stdlib Require Import Ascii String DecimalString.
From Stdlib Require Import DecimalPos DecimalN.
Import ListNotations.

Open Scope string_scope.

(** ** JavaScript strings

    A string is read as a sequence of code units in the range U+0000..U+00FF
    (one [ascii] per code unit).  On that range [String.prototype.toLowerCase]
    maps A..Z and the Latin-1 capitals U+00C0..U+00DE (U+00D7 excepted) to the
    code unit 32 places higher and leaves every other code unit alone. *)
Module JsString.

Definition toLowerCaseUnit (c : ascii) : ascii :=
  let n := N_of_ascii c in
  if ((65 <=? n) && (n <=? 90)
      || (192 <=? n) && (n <=? 222) && negb (n =? 215))%N
  then ascii_of_N (n + 32)
  else c.

Fixpoint toLowerCase (s : string) : string :=
  match s with
  | EmptyString => EmptyString
  | String c s' => String (toLowerCaseUnit c) (toLowerCase s')
  end.

(** [s.endsWith(searchString)]: the search string is compared with the
    code units of [s] from [length s - length searchString] on; a negative
    start gives [false]. *)
Definition endsWith (s searchString : string) : bool :=
  let len := String.length s in
  let searchLength := String.length searchString in
  if (searchLength <=? len)%nat
  then String.eqb (substring (len - searchLength) searchLength s) searchString
  else false.

(** [s.includes(searchString)]: some position of [s] starts an occurrence
    of the search string. *)
Fixpoint includes (s searchString : string) : bool :=
  prefix searchString s
  || match s with
     | EmptyString => false
     | String _ s' => includes s' searchString
     end.

(** [parts.join(separator)] *)
Definition join (separator : string) (parts : list string) : string :=
  String.concat separator parts.

(** The decimal digits of a non-negative integer, as a template literal
    prints it. *)
Definition decimal (n : N) : string :=
  NilZero.string_of_uint (N.to_uint n).

(** [(num / den).toFixed(1)] for [den] a power of two and [num] below
    2^53, where the quotient is exact as a double: the result is the
    integer [n] nearest to ten times the quotient, the larger one on a
    tie, printed with its last digit after the point. *)
Definition toFixed1 (num den : N) : string :=
  let n := ((20 * num + den) / (2 * den))%N in
  decimal (n / 10) ++ "." ++ decimal (n mod 10).

End JsString.

Import JsString.

(** [array.push(x)] *)
Definition push {A : Type} (array : list A) (x : A) : list A :=
  (array ++ [x])%list.

(** ** Files *)

(** The part of a DOM [File] the program reads: [file.name], [file.type]
    (the declared MIME type) and [file.size] (a byte count). *)
Record File : Type := mkFile {
  name : string;
  type : string;
  size : N
}.

Inductive FileType : Type :=
| dicom_video
| regular_video
| dicom_image
| regular_image
| unknown.

(** ** Asynchronous computations

    An [async] function is run to completion against the console: it ends
    fulfilled with a value or rejected with an error, and leaves the lines it
    printed with [console.error].  An error is represented by its message. *)

Definition Error : Type := string.

Inductive Outcome (A : Type) : Type :=
| Fulfilled (value : A)
| Rejected (error : Error).
Arguments Fulfilled {A} value.
Arguments Rejected {A} error.

Definition Console : Type := list (string * Error).

Definition Async (A : Type) : Type := Console -> Outcome A * Console.

Definition ret {A : Type} (a : A) : Async A :=
  fun console => (Fulfilled a, console).

Definition throw {A : Type} (e : Error) : Async A :=
  fun console => (Rejected e, console).

Definition bind {A B : Type} (m : Async A) (k : A -> Async B) : Async B :=
  fun console =>
    match m console with
    | (Fulfilled a, console') => k a console'
    | (Rejected e, console') => (Rejected e, console')
    end.

(** [try { body } catch (error) { handler }] *)
Definition tryCatch {A : Type} (body : Async A) (handler : Error -> Async A)
  : Async A :=
  fun console =>
    match body console with
    | (Fulfilled a, console') => (Fulfilled a, console')
    | (Rejected e, console') => handler e console'
    end.

(** A call into the external collaborator: it prints nothing, and returns or
    throws. *)
Definition call {A : Type} (o : Outcome A) : Async A :=
  fun console => (o, console).

Definition console_error (label : string) (error : Error) : Async unit :=
  fun console => (Fulfilled tt, push console (label, error)).

Declare Scope async_scope.
Delimit Scope async_scope with async.
Notation "x <- m ;; k" := (bind m (fun x => k))
  (at level 61, m at next level, right associativity) : async_scope.
Notation "m ;;; k" := (bind m (fun _ => k))
  (at level 61, right associativity) : async_scope.
Open Scope async_scope.

(** ** The external collaborator

    What the program consumes of the DICOM image loader and of the metadata
    registry, with the types their declarations give: [metaData.get] of
    ["sopCommonModule"] and of ["multiframeModule"] yields [undefined] or a
    module object whose field may be [undefined]; the frame counts are
    numbers (integers here) and the SOP class UID is a string.  Every call
    may throw, and so may the dynamic [import('./VideoPlayer')]. *)

Record SopCommonModule : Type := { sopClassUID : option string }.
Record MultiframeModule : Type := { numberOfFrames : option Z }.

Record Collaborator : Type := {
  import_VideoPlayer : Outcome unit;
  fileManager_add : File -> Outcome string;
  metaData_get_sopCommonModule : string -> Outcome (option SopCommonModule);
  metaData_get_multiframeModule : string -> Outcome (option MultiframeModule);
  metaData_get_numberOfFrames : string -> Outcome (option Z)
}.

(** [object?.field] *)
Definition optionalChain {O A : Type} (object : option O)
  (field : O -> option A) : option A :=
  match object with
  | Some o => field o
  | None => None
  end.

(** Truthiness of a number-or-undefined and of a string-or-undefined. *)
Definition truthyNumber (v : option Z) : option Z :=
  match v with
  | Some n => if (n =? 0)%Z then None else Some n
  | None => None
  end.

Definition truthyString (v : option string) : option string :=
  match v with
  | Some s => if String.eqb s "" then None else Some s
  | None => None
  end.

(** ** The exported helpers of [VideoPlayer.tsx] *)
Module VideoPlayer.

Definition fileToImageId (cs : Collaborator) (file : File) : Async string :=
  call (fileManager_add cs file).

Definition videoSopClasses : list string :=
  [ "1.2.840.10008.5.1.4.1.1.77.1.1.1";
    "1.2.840.10008.5.1.4.1.1.77.1.2.1";
    "1.2.840.10008.5.1.4.1.1.77.1.4.1";
    "1.2.840.10008.5.1.4.1.1.181.1";
    "1.2.840.10008.5.1.4.1.1.6.2";
    "1.2.840.10008.5.1.4.1.1.3.1";
    "1.2.840.10008.5.1.4.1.1.12.1";
    "1.2.840.10008.5.1.4.1.1.12.2" ].

(** [array.includes(x)] on an array of strings *)
Definition arrayIncludes (array : list string) (x : string) : bool :=
  existsb (String.eqb x) array.

Definition isDicomVideo (cs : Collaborator) (imageId : string) : Async bool :=
  tryCatch
    (sopCommonModule <- call (metaData_get_sopCommonModule cs imageId) ;;
     multiframeModule <- call (metaData_get_multiframeModule cs imageId) ;;
     numberOfFrames <-
       match truthyNumber (optionalChain multiframeModule numberOfFrames) with
       | Some n => ret n
       | None =>
           direct <- call (metaData_get_numberOfFrames cs imageId) ;;
           match truthyNumber direct with
           | Some n => ret n
           | None => ret 1%Z
           end
       end ;;
     let sopClassUID :=
       match truthyString (optionalChain sopCommonModule sopClassUID) with
       | Some s => s
       | None => ""
       end in
     ret (arrayIncludes videoSopClasses sopClassUID || (1 <? numberOfFrames)%Z))
    (fun error =>
       console_error "Error checking if DICOM is video:" error ;;;
       ret false).

End VideoPlayer.

(** ** [FileHandler] *)
Module FileHandler.

Definition isDicomFile (file : File) : bool :=
  endsWith (toLowerCase (name file)) ".dcm"
  || String.eqb (type file) "application/dicom".

Definition videoExtensions : list string :=
  [".mp4"; ".avi"; ".mov"; ".wmv"; ".flv"; ".webm"; ".mpeg"; ".mpg"].
Definition videoMimeTypes : list string :=
  ["video/mp4"; "video/avi"; "video/quicktime"; "video/x-ms-wmv"].

Definition isVideoFile (file : File) : bool :=
  existsb (fun type' => includes (type file) type') videoMimeTypes
  || existsb (fun ext => endsWith (toLowerCase (name file)) ext) videoExtensions.

Definition imageExtensions : list string :=
  [".jpg"; ".jpeg"; ".png"; ".gif"; ".bmp"; ".tiff"].
Definition imageMimeTypes : list string :=
  ["image/jpeg"; "image/png"; "image/gif"; "image/bmp"; "image/tiff"].

Definition isImageFile (file : File) : bool :=
  existsb (fun type' => includes (type file) type') imageMimeTypes
  || existsb (fun ext => endsWith (toLowerCase (name file)) ext) imageExtensions.

Definition getFileSize (file : File) : string :=
  let size := size file in
  if (size <? 1024)%N then decimal size ++ " B"
  else if (size <? 1024 * 1024)%N then toFixed1 size 1024 ++ " KB"
  else toFixed1 size (1024 * 1024) ++ " MB".

Record ValidationResult : Type := mkValidation {
  isValid : bool;
  errors : list string
}.

Definition validateFile (file : File) : ValidationResult :=
  let errors : list string := [] in
  let maxSize := (200 * 1024 * 1024)%N in
  let errors :=
    if (maxSize <? size file)%N
    then push errors ("File too large (" ++ getFileSize file ++ " > 200MB)")
    else errors in
  let errors :=
    if (size file =? 0)%N
    then push errors "File is empty"
    else errors in
  {| isValid := (List.length errors =? 0)%nat; errors := errors |}.

Definition getDetailedFileType (cs : Collaborator) (file : File)
  : Async FileType :=
  if isDicomFile file then
    tryCatch
      (call (import_VideoPlayer cs) ;;;
       imageId <- VideoPlayer.fileToImageId cs file ;;
       isVideo <- VideoPlayer.isDicomVideo cs imageId ;;
       ret (if isVideo then dicom_video else dicom_image))
      (fun error =>
         console_error "Error checking DICOM type:" error ;;;
         ret dicom_image)
  else if isVideoFile file then ret regular_video
  else if isImageFile file then ret regular_image
  else ret unknown.

End FileHandler.

Import FileHandler.


(** ** The upload handlers of [App.tsx]

    An [async] handler runs up to its [await] when the event arrives, and its
    continuation runs when the awaited classification settles.  In between
    other events are handled, so each handler is split at the [await]: the
    first half returns the file whose classification it awaits, if it got
    that far, and the second half receives the outcome. *)
Module App.

Record State : Type := mkState {
  file : option File;
  fileType : FileType;
  validationError : string;
  isLoading : bool
}.

Definition initialState : State :=
  {| file := None; fileType := unknown; validationError := ""; isLoading := false |}.

Definition setFile (v : option File) (s : State) : State :=
  {| file := v; fileType := fileType s;
     validationError := validationError s; isLoading := isLoading s |}.
Definition setFileType (v : FileType) (s : State) : State :=
  {| file := file s; fileType := v;
     validationError := validationError s; isLoading := isLoading s |}.
Definition setValidationError (v : string) (s : State) : State :=
  {| file := file s; fileType := fileType s;
     validationError := v; isLoading := isLoading s |}.
Definition setIsLoading (v : bool) (s : State) : State :=
  {| file := file s; fileType := fileType s;
     validationError := validationError s; isLoading := v |}.

(** [handleUpload] up to [await FileHandler.getDetailedFileType(uploadedFile)];
    [uploadedFile] is [event.target.files?.[0] || null]. *)
Definition handleUpload_begin (uploadedFile : option File) (s : State)
  : State * option File :=
  let s := setFile None s in
  let s := setFileType unknown s in
  let s := setValidationError "" s in
  match uploadedFile with
  | None => (s, None)
  | Some uploadedFile =>
      let validation := validateFile uploadedFile in
      if negb (isValid validation)
      then (setValidationError (join ", " (errors validation)) s, None)
      else (setIsLoading true s, Some uploadedFile)
  end.

(** [handleUpload] from the [await] on: the [try] continues or the [catch]
    runs, then the [finally]. *)
Definition handleUpload_resume (uploadedFile : File)
  (settled : Outcome FileType) (s : State) : State :=
  let s :=
    match settled with
    | Fulfilled type' =>
        let s := setFileType type' s in
        setFile (Some uploadedFile) s
    | Rejected message =>
        setValidationError ("Error processing file: " ++ message) s
    end in
  setIsLoading false s.

(** [handleDrop] up to its [await]; [droppedFile] is
    [event.dataTransfer.files?.[0] || null]. *)
Definition handleDrop_begin (droppedFile : option File) (s : State)
  : State * option File :=
  match droppedFile with
  | None => (s, None)
  | Some droppedFile =>
      let validation := validateFile droppedFile in
      if negb (isValid validation)
      then (setValidationError (join ", " (errors validation)) s, None)
      else (setIsLoading true s, Some droppedFile)
  end.

Definition handleDrop_resume (droppedFile : File)
  (settled : Outcome FileType) (s : State) : State :=
  let s :=
    match settled with
    | Fulfilled type' =>
        let s := setFileType type' s in
        setFile (Some droppedFile) s
    | Rejected message =>
        setValidationError ("Error processing file: " ++ message) s
    end in
  setIsLoading false s.

Definition clearFile (s : State) : State :=
  let s := setFile None s in
  let s := setFileType unknown s in
  setValidationError "" s.

(** *** The event loop

    The page with its handlers in flight.  [pending] lists the
    classifications awaited, oldest first, each with the handler that awaits
    it; they settle in any order.  A classification is computed when it
    settles: the collaborator does not change during a run, so the outcome
    is the one of the call made when the event arrived, and only the place
    of its console lines among the others may differ.  Events are taken
    whatever the page renders (while loading it offers neither the file
    input nor the remove button, but it always accepts a drop).
    [selected] is not a variable of the program: it records the file of the
    user's latest selection (none after a removal or a refused upload), the
    file a result would have to be compared with. *)

Inductive Handler : Type := ByUpload | ByDrop.

Record Page : Type := mkPage {
  state : State;
  pending : list (Handler * File);
  console : Console;
  selected : option File
}.

Definition initialPage : Page :=
  {| state := initialState; pending := []; console := []; selected := None |}.

Inductive Event : Type :=
| Upload (uploadedFile : option File)   (* change event of the file input *)
| Drop (droppedFile : option File)      (* drop event on the upload area *)
| Remove                                (* click on "Remove File" *)
| Settle (i : nat).                     (* the i-th awaited classification settles *)

Fixpoint removeAt {A : Type} (i : nat) (l : list A) : list A :=
  match i, l with
  | _, [] => []
  | O, _ :: l' => l'
  | S i', x :: l' => x :: removeAt i' l'
  end.

Definition await (h : Handler) (awaited : option File) (l : list (Handler * File))
  : list (Handler * File) :=
  match awaited with
  | Some f => push l (h, f)
  | None => l
  end.

Definition step (cs : Collaborator) (p : Page) (e : Event) : Page :=
  match e with
  | Upload uploadedFile =>
      let (s, awaited) := handleUpload_begin uploadedFile (state p) in
      {| state := s; pending := await ByUpload awaited (pending p);
         console := console p; selected := awaited |}
  | Drop droppedFile =>
      let (s, awaited) := handleDrop_begin droppedFile (state p) in
      {| state := s; pending := await ByDrop awaited (pending p);
         console := console p;
         selected := match awaited with Some f => Some f | None => selected p end |}
  | Remove =>
      {| state := clearFile (state p); pending := pending p;
         console := console p; selected := None |}
  | Settle i =>
      match nth_error (pending p) i with
      | None => p
      | Some (h, f) =>
          let (settled, console') := getDetailedFileType cs f (console p) in
          let resume :=
            match h with
            | ByUpload => handleUpload_resume
            | ByDrop => handleDrop_resume
            end in
          {| state := resume f settled (state p);
             pending := removeAt i (pending p);
             console := console'; selected := selected p |}
      end
  end.

Definition run (cs : Collaborator) (events : list Event) : Page :=
  fold_left (step cs) events initialPage.

End App.

Import App.

(** ** Vocabulary of the properties *)

(** A name ends with ".dcm" in some mix of upper and lower case. *)
Definition endsWithDcmAnyCase (s : string) : Prop :=
  exists pre d c m,
    s = pre ++ String "." (String d (String c (String m "")))
    /\ (d = "d" \/ d = "D")%char
    /\ (c = "c" \/ c = "C")%char
    /\ (m = "m" \/ m = "M")%char.

(** The two constants [isDicomVideo] decides on: [sopClassUID] and
    [numberOfFrames] as its [try] block binds them. *)
Record DicomProbe : Type := mkProbe {
  probedSopClassUID : string;
  probedNumberOfFrames : Z
}.

(** The metadata reads of [isDicomVideo], without its [catch]: the probe
    they yield, or the error of the first read that throws.  The direct
    ["numberOfFrames"] lookup is made only when the multi-frame module gives
    no truthy count. *)
Definition readProbe (cs : Collaborator) (imageId : string)
  : Outcome DicomProbe :=
  match metaData_get_sopCommonModule cs imageId with
  | Rejected e => Rejected e
  | Fulfilled sopCommonModule =>
      let uid :=
        match truthyString (optionalChain sopCommonModule sopClassUID) with
        | Some s => s
        | None => ""
        end in
      match metaData_get_multiframeModule cs imageId with
      | Rejected e => Rejected e
      | Fulfilled multiframeModule =>
          match truthyNumber (optionalChain multiframeModule numberOfFrames) with
          | Some n => Fulfilled (mkProbe uid n)
          | None =>
              match metaData_get_numberOfFrames cs imageId with
              | Rejected e => Rejected e
              | Fulfilled direct =>
                  Fulfilled (mkProbe uid match truthyNumber direct with
                                         | Some n => n
                                         | None => 1%Z
                                         end)
              end
          end
      end
  end.

(** The metadata probe of a file from the caller's side: the module is
    imported, the file registered and the metadata read; the first failure
    ends it. *)
Definition probeOutcome (cs : Collaborator) (f : File) : Outcome DicomProbe :=
  match import_VideoPlayer cs with
  | Rejected e => Rejected e
  | Fulfilled _ =>
      match fileManager_add cs f with
      | Rejected e => Rejected e
      | Fulfilled imageId => readProbe cs imageId
      end
  end.

(** A frame count that [||] skips: [undefined] or 0. *)
Definition falsyNumber (v : option Z) : Prop := v = None \/ v = Some 0%Z.

(** The metadata probe throws [e]: one of the reads [isDicomVideo] makes
    throws it. *)
Definition probeThrows (cs : Collaborator) (imageId : string) (e : Error)
  : Prop :=
  metaData_get_sopCommonModule cs imageId = Rejected e
  \/ (exists sc,
         metaData_get_sopCommonModule cs imageId = Fulfilled sc
         /\ metaData_get_multiframeModule cs imageId = Rejected e)
  \/ (exists sc mf,
         metaData_get_sopCommonModule cs imageId = Fulfilled sc
         /\ metaData_get_multiframeModule cs imageId = Fulfilled mf
         /\ falsyNumber (optionalChain mf numberOfFrames)
         /\ metaData_get_numberOfFrames cs imageId = Rejected e).

(** The classification a call settles with. *)
Definition classification (cs : Collaborator) (f : File) (c : Console)
  : Outcome FileType :=
  fst (getDetailedFileType cs f c).

(** The page shows no file and the tag unknown, or a file together with
    the tag its classification settles with. *)
Definition displayedPairConsistent (cs : Collaborator) (s : App.State) : Prop :=
  match file s with
  | None => fileType s = unknown
  | Some f => forall c, classification cs f c = Fulfilled (fileType s)
  end.

(** A registry that knows nothing of the file yet: registration succeeds
    and every metadata read yields [undefined]. *)
Definition blankCollaborator : Collaborator :=
  {| import_VideoPlayer := Fulfilled tt;
     fileManager_add := fun _ => Fulfilled "dicomfile:0";
     metaData_get_sopCommonModule := fun _ => Fulfilled None;
     metaData_get_multiframeModule := fun _ => Fulfilled None;
     metaData_get_numberOfFrames := fun _ => Fulfilled None |}.

(** A registry holding an Enhanced CT object (a SOP class outside the
    video list) of the given frame count. *)
Definition enhancedCT (frames : option Z) : Collaborator :=
  {| import_VideoPlayer := Fulfilled tt;
     fileManager_add := fun _ => Fulfilled "dicomfile:0";
     metaData_get_sopCommonModule := fun _ =>
       Fulfilled (Some {| sopClassUID := Some "1.2.840.10008.5.1.4.1.1.2.1" |});
     metaData_get_multiframeModule := fun _ =>
       Fulfilled (Some {| numberOfFrames := frames |});
     metaData_get_numberOfFrames := fun _ => Fulfilled None |}.

(** The same object in a registry that answers the direct
    ["numberOfFrames"] lookup only. *)
Definition enhancedCTDirect (frames : option Z) : Collaborator :=
  {| import_VideoPlayer := Fulfilled tt;
     fileManager_add := fun _ => Fulfilled "dicomfile:7";
     metaData_get_sopCommonModule := fun _ =>
       Fulfilled (Some {| sopClassUID := Some "1.2.840.10008.5.1.4.1.1.2.1" |});
     metaData_get_multiframeModule := fun _ => Fulfilled None;
     metaData_get_numberOfFrames := fun _ => Fulfilled frames |}.

(** A registry whose metadata reads throw. *)
Definition brokenMetadata : Collaborator :=
  {| import_VideoPlayer := Fulfilled tt;
     fileManager_add := fun _ => Fulfilled "dicomfile:0";
     metaData_get_sopCommonModule := fun _ => Rejected "no provider";
     metaData_get_multiframeModule := fun _ => Rejected "no provider";
     metaData_get_numberOfFrames := fun _ => Rejected "no provider" |}.

(** A loader that refuses the file. *)
Definition brokenLoader : Collaborator :=
  {| import_VideoPlayer := Fulfilled tt;
     fileManager_add := fun _ => Rejected "cannot add file";
     metaData_get_sopCommonModule := fun _ => Fulfilled None;
     metaData_get_multiframeModule := fun _ => Fulfilled None;
     metaData_get_numberOfFrames := fun _ => Fulfilled None |}.

(** A multi-frame DICOM object and a plain video, dropped one after the
    other; the video's classification settles first. *)
Definition cineFile : File := mkFile "cine.dcm" "application/dicom" 4096.
Definition clipFile : File := mkFile "video.mp4" "video/mp4" 1000.
Definition twoDrops : list Event :=
  [Drop (Some cineFile); Drop (Some clipFile); Settle 1].

(** *** Letter case

    [file.type] is handed over by the File API in lower case: a declared
    type with a code unit outside U+0020..U+007E becomes the empty string,
    any other has its letters A..Z lower-cased. *)













(** ** More of the code and of its vocabulary *)

(** The [accept] attribute of the file input of [App.tsx], split at its
    commas. *)
Definition acceptedExtensions : list string :=
  [".dcm"; ".mp4"; ".avi"; ".mov"; ".wmv"; ".flv"; ".webm";
   ".jpg"; ".jpeg"; ".png"; ".gif"; ".bmp"].

(** A size [validateFile] lets through. *)
Definition validSize (f : File) : Prop :=
  (0 < size f <= 209715200)%N.

(** What the error banner of [App.tsx] can read after a refused file. *)
Definition validationMessage (message : string) : Prop :=
  message = "File is empty"
  \/ exists f : File,
       (209715200 < size f)%N
       /\ message = "File too large (" ++ getFileSize f ++ " > 200MB)".

(** The collaborator with another answer to the direct ["numberOfFrames"]
    lookup. *)
Definition withDirectLookup (cs : Collaborator)
  (lookup : string -> Outcome (option Z)) : Collaborator :=
  {| import_VideoPlayer := import_VideoPlayer cs;
     fileManager_add := fileManager_add cs;
     metaData_get_sopCommonModule := metaData_get_sopCommonModule cs;
     metaData_get_multiframeModule := metaData_get_multiframeModule cs;
     metaData_get_numberOfFrames := lookup |}.

(** *** [formatTime] of [VideoPlayer.tsx]

    The player's times are read here when they are NaN (the duration before
    the metadata is loaded) or a whole number of seconds below 2^53 (what
    the seek bar passes on): on these [seconds / 60], [seconds % 60] and
    [Math.floor] are exact, and [toString] prints the decimal digits. *)

Inductive Seconds : Type :=
| NaN
| wholeSeconds (n : N).

(** The first [fillLen] code units of [padString] repeated; [rest] is what
    is left of the current repetition. *)
Fixpoint filler (padString rest : string) (fillLen : nat) : string :=
  match fillLen with
  | O => ""
  | S fillLen' =>
      match rest with
      | String c rest' => String c (filler padString rest' fillLen')
      | EmptyString =>
          match padString with
          | String c rest' => String c (filler padString rest' fillLen')
          | EmptyString => ""
          end
      end
  end.

(** [s.padStart(targetLength, padString)] *)
Definition padStart (targetLength : nat) (padString s : string) : string :=
  if (targetLength <=? String.length s)%nat then s
  else filler padString padString (targetLength - String.length s) ++ s.

Definition formatTime (seconds : Seconds) : string :=
  match seconds with
  | NaN => "00:00"
  | wholeSeconds n =>
      let mins := (n / 60)%N in
      let secs := (n mod 60)%N in
      padStart 2 "0" (decimal mins) ++ ":" ++ padStart 2 "0" (decimal secs)
  end.

(** The reading of a time display: the digits before the colon count
    minutes, those after it seconds. *)
Definition digitsValue (s : string) : option N :=
  match NilZero.uint_of_string s with
  | Some d => Some (N.of_uint d)
  | None => None
  end.

Fixpoint splitAtColon (s : string) : option (string * string) :=
  match s with
  | EmptyString => None
  | String c s' =>
      if Ascii.eqb c ":" then Some ("", s')
      else match splitAtColon s' with
           | Some (a, b) => Some (String c a, b)
           | None => None
           end
  end.

Definition readTime (s : string) : option N :=
  match splitAtColon s with
  | Some (a, b) =>
      match digitsValue a, digitsValue b with
      | Some mins, Some secs => Some (60 * mins + secs)%N
      | _, _ => None
      end
  | None => None
  end.

(** *** The display effect of [VideoPlayer.tsx]

    The body of the component's [useEffect] ([handleFile] with the helpers
    it awaits) and the cleanup it returns, run against the browser and the
    rendering engine.  The world holds what they read and write: the React
    state [error], [videoUrl] and [duration], the [renderingEngineRef], the
    object URLs alive in the browser, the calls made so far and the console.
    [handleFile] is run to its end; the listeners it registers on the video
    element are recorded, their later callbacks are not run. *)
Module Player.

(** A number the browser hands over (a duration); it is only passed on. *)
Inductive JsNumber : Type :=
| JsNaN
| JsInfinity
| JsRatio (num : Z) (den : positive).

Inductive ViewportType : Type := VIDEO | STACK.

(** The calls into the rendering engine, the image loader and the browser. *)
Inductive Call : Type :=
| CsInit
| FileManagerAdd (file : File)
| NewRenderingEngine (id : string)
| EnableElement (viewportId : string) (type' : ViewportType)
| GetViewport (viewportId : string)
| SetVideo (imageId : string)
| ViewportPlay
| SetStack (imageIds : list string)
| ViewportRender
| DisableElement (viewportId : string)
| EngineDestroy
| CreateObjectURL (file : File)
| RevokeObjectURL (url : string)
| VideoSetSrc (src : string)
| VideoLoad
| VideoPause
| VideoAddEventListener (event : string)
| ImageSetSrc (src : string).

Inductive Level : Type := LOG | ERROR.

Inductive Arg : Type :=
| text (s : string)
| number (n : JsNumber).

(** The surroundings: whether an engine call throws, given the calls made
    before it (a viewport that is [undefined] shows as its first method
    call throwing); the collaborator of the classifier, whose file manager
    registers the file; the object URLs the browser issues, in order; and
    how a media element answers a source: [loadedmetadata] with a duration
    or [error] for a video, [load] or [error] for an image. *)
Record Host : Type := {
  engine : list Call -> Call -> option Error;
  collaborator : Collaborator;
  objectUrl : nat -> string;
  videoMetadata : string -> Outcome JsNumber;
  imageLoads : string -> bool
}.

(** The refs the JSX attaches for a file type. *)
Record Refs : Type := {
  videoRef : bool;
  imageRef : bool;
  dicomViewportRef : bool;
  containerRef : bool
}.

Definition rendered (fileType : FileType) : Refs :=
  {| videoRef := match fileType with regular_video => true | _ => false end;
     imageRef := match fileType with regular_image => true | _ => false end;
     dicomViewportRef :=
       match fileType with
       | dicom_image | dicom_video => true
       | _ => false
       end;
     containerRef := true |}.

Record World : Type := {
  error : string;
  videoUrl : string;
  duration : JsNumber;
  renderingEngineRef : option string;
  objectUrls : list string;
  issued : nat;
  calls : list Call;
  lines : list (Level * list Arg)
}.

(** The world of a freshly mounted component. *)
Definition mounted (objectUrls : list string) (issued : nat) : World :=
  {| error := ""; videoUrl := ""; duration := JsRatio 0 1;
     renderingEngineRef := None;
     objectUrls := objectUrls; issued := issued; calls := []; lines := [] |}.

Definition Eff (A : Type) : Type := World -> Outcome A * World.

Definition ret {A : Type} (a : A) : Eff A := fun w => (Fulfilled a, w).

Definition throw {A : Type} (e : Error) : Eff A := fun w => (Rejected e, w).

Definition bind {A B : Type} (m : Eff A) (k : A -> Eff B) : Eff B :=
  fun w =>
    match m w with
    | (Fulfilled a, w') => k a w'
    | (Rejected e, w') => (Rejected e, w')
    end.

Definition tryCatch {A : Type} (body : Eff A) (handler : Error -> Eff A)
  : Eff A :=
  fun w =>
    match body w with
    | (Fulfilled a, w') => (Fulfilled a, w')
    | (Rejected e, w') => handler e w'
    end.

Declare Scope player_scope.
Delimit Scope player_scope with player.
Notation "x <- m ;; k" := (bind m (fun x => k))
  (at level 61, m at next level, right associativity) : player_scope.
Notation "m ;;; k" := (bind m (fun _ => k))
  (at level 61, right associativity) : player_scope.
#[local] Open Scope player_scope.

Definition update (f : World -> World) : Eff unit :=
  fun w => (Fulfilled tt, f w).

Definition console_log (args : list Arg) : Eff unit :=
  update (fun w =>
    {| error := error w; videoUrl := videoUrl w; duration := duration w;
       renderingEngineRef := renderingEngineRef w;
       objectUrls := objectUrls w; issued := issued w; calls := calls w;
       lines := push (lines w) (LOG, args) |}).

Definition console_error (args : list Arg) : Eff unit :=
  update (fun w =>
    {| error := error w; videoUrl := videoUrl w; duration := duration w;
       renderingEngineRef := renderingEngineRef w;
       objectUrls := objectUrls w; issued := issued w; calls := calls w;
       lines := push (lines w) (ERROR, args) |}).

Definition setError (v : string) : Eff unit :=
  update (fun w =>
    {| error := v; videoUrl := videoUrl w; duration := duration w;
       renderingEngineRef := renderingEngineRef w;
       objectUrls := objectUrls w; issued := issued w; calls := calls w;
       lines := lines w |}).

Definition setVideoUrl (v : string) : Eff unit :=
  update (fun w =>
    {| error := error w; videoUrl := v; duration := duration w;
       renderingEngineRef := renderingEngineRef w;
       objectUrls := objectUrls w; issued := issued w; calls := calls w;
       lines := lines w |}).

Definition setDuration (v : JsNumber) : Eff unit :=
  update (fun w =>
    {| error := error w; videoUrl := videoUrl w; duration := v;
       renderingEngineRef := renderingEngineRef w;
       objectUrls := objectUrls w; issued := issued w; calls := calls w;
       lines := lines w |}).

Definition setRenderingEngineRef (v : option string) : Eff unit :=
  update (fun w =>
    {| error := error w; videoUrl := videoUrl w; duration := duration w;
       renderingEngineRef := v;
       objectUrls := objectUrls w; issued := issued w; calls := calls w;
       lines := lines w |}).

(** A call that is recorded and returns. *)
Definition record (c : Call) : Eff unit :=
  update (fun w =>
    {| error := error w; videoUrl := videoUrl w; duration := duration w;
       renderingEngineRef := renderingEngineRef w;
       objectUrls := objectUrls w; issued := issued w;
       calls := push (calls w) c; lines := lines w |}).

(** A call into the engine: recorded, then it returns or throws. *)
Definition perform (host : Host) (c : Call) : Eff unit :=
  fun w =>
    match engine host (calls w) c with
    | None => record c w
    | Some e => (Rejected e, snd (record c w))
    end.

(** An [async] function of the classifier run here: its outcome is kept
    and its console lines are appended. *)
Definition liftAsync {A : Type} (m : Async A) : Eff A :=
  fun w =>
    let (settled, printed) := m [] in
    (settled,
     {| error := error w; videoUrl := videoUrl w; duration := duration w;
        renderingEngineRef := renderingEngineRef w;
        objectUrls := objectUrls w; issued := issued w; calls := calls w;
        lines :=
          (lines w
           ++ map (fun line => (ERROR, [text (fst line); text (snd line)]))
                printed)%list |}).

(** [await fileToImageId(file)], the exported helper, with its call
    recorded. *)
Definition fileToImageId (host : Host) (file : File) : Eff string :=
  record (FileManagerAdd file) ;;;
  liftAsync (VideoPlayer.fileToImageId (collaborator host) file).

(** [URL.createObjectURL(file)] *)
Definition createObjectURL (host : Host) (file : File) : Eff string :=
  fun w =>
    let url := objectUrl host (issued w) in
    (Fulfilled url,
     {| error := error w; videoUrl := videoUrl w; duration := duration w;
        renderingEngineRef := renderingEngineRef w;
        objectUrls := push (objectUrls w) url; issued := S (issued w);
        calls := push (calls w) (CreateObjectURL file); lines := lines w |}).

(** [URL.revokeObjectURL(url)] *)
Definition revokeObjectURL (url : string) : Eff unit :=
  update (fun w =>
    {| error := error w; videoUrl := videoUrl w; duration := duration w;
       renderingEngineRef := renderingEngineRef w;
       objectUrls :=
         filter (fun u => negb (String.eqb u url)) (objectUrls w);
       issued := issued w;
       calls := push (calls w) (RevokeObjectURL url); lines := lines w |}).

Definition tagText (fileType : FileType) : string :=
  match fileType with
  | dicom_video => "dicom-video"
  | regular_video => "regular-video"
  | dicom_image => "dicom-image"
  | regular_image => "regular-image"
  | unknown => "unknown"
  end.

Definition setupVideoPlayer (host : Host) (refs : Refs) (url : string)
  : Eff unit :=
  if negb (videoRef refs) then
    console_error [text "Video element not available"]
  else
    record (VideoSetSrc url) ;;;
    console_log [text "Video source set:"; text url] ;;;
    record VideoLoad ;;;
    videoDuration <-
      match videoMetadata host url with
      | Fulfilled d =>
          console_log [text "Video metadata loaded, duration:"; number d] ;;;
          ret d
      | Rejected _ =>
          console_error [text "Error loading video metadata"] ;;;
          throw "Failed to load video metadata"
      end ;;
    setDuration videoDuration ;;;
    record (VideoAddEventListener "timeupdate") ;;;
    record (VideoAddEventListener "play") ;;;
    record (VideoAddEventListener "pause") ;;;
    record (VideoAddEventListener "ended") ;;;
    record (VideoAddEventListener "error") ;;;
    console_log [text "Video player setup complete"].

Definition handleRegularImage (host : Host) (refs : Refs) (url : string)
  : Eff unit :=
  if negb (imageRef refs) then
    console_error [text "Image element not available"]
  else
    record (ImageSetSrc url) ;;;
    console_log [text "Image source set:"; text url] ;;;
    if imageLoads host url then
      console_log [text "Image loaded successfully"]
    else
      console_error [text "Error loading image"] ;;;
      throw "Failed to load image".

Definition handleDicomFile (host : Host) (file : File) (isVideo : bool)
  : Eff unit :=
  tryCatch
    (console_log [text "Initializing Cornerstone.js"] ;;;
     perform host CsInit ;;;
     console_log [text "Cornerstone.js initialized"] ;;;
     imageId <- fileToImageId host file ;;
     console_log [text "DICOM imageId created:"; text imageId] ;;;
     let renderingEngineId := "dicomRE" in
     let viewportId := "dicomVP" in
     perform host (NewRenderingEngine renderingEngineId) ;;;
     setRenderingEngineRef (Some renderingEngineId) ;;;
     perform host (EnableElement viewportId (if isVideo then VIDEO else STACK)) ;;;
     console_log [text ("Viewport enabled for DICOM "
                        ++ (if isVideo then "video" else "image")
                        ++ " rendering")] ;;;
     perform host (GetViewport viewportId) ;;;
     (if isVideo then
        perform host (SetVideo imageId) ;;;
        console_log [text "DICOM video set for rendering"] ;;;
        perform host ViewportPlay ;;;
        console_log [text "DICOM video playback started"]
      else
        perform host (SetStack [imageId]) ;;;
        console_log [text "DICOM stack set for rendering"]) ;;;
     perform host ViewportRender ;;;
     console_log [text ("DICOM " ++ (if isVideo then "video" else "image")
                        ++ " rendered")])
    (fun err =>
       console_error [text "Error rendering DICOM file:"; text err] ;;;
       setError ("Failed to render DICOM file: " ++ err
                 ++ ". Ensure Cornerstone.js and its dependencies are properly installed.")).

Definition handleFile (host : Host) (refs : Refs) (file : File)
  (fileType : FileType) : Eff unit :=
  setError "" ;;;
  console_log [text ("Processing file: " ++ name file ++ ", Type: "
                     ++ tagText fileType)] ;;;
  tryCatch
    (match fileType with
     | dicom_video | dicom_image =>
         console_log [text "Handling DICOM file with Cornerstone.js"] ;;;
         handleDicomFile host file
           match fileType with dicom_video => true | _ => false end
     | regular_video =>
         url <- createObjectURL host file ;;
         setVideoUrl url ;;;
         console_log [text ("Created object URL for regular video: " ++ url)] ;;;
         setupVideoPlayer host refs url
     | regular_image =>
         url <- createObjectURL host file ;;
         setVideoUrl url ;;;
         console_log [text ("Created object URL for regular image: " ++ url)] ;;;
         handleRegularImage host refs url
     | unknown =>
         setError ("Unsupported file type: " ++ tagText fileType) ;;;
         console_error [text ("Unsupported file type: " ++ tagText fileType)]
     end)
    (fun err =>
       setError ("Failed to load file: " ++ err) ;;;
       console_error [text "Error loading file:"; text err]).

(** The body of the effect. *)
Definition effect (host : Host) (refs : Refs) (file : File)
  (fileType : FileType) : Eff unit :=
  if negb (containerRef refs) then
    console_log [text "No file or container available"]
  else handleFile host refs file fileType.

(** The cleanup the effect returns.  [videoUrl] is the state the render
    that set the effect up has seen, which the closure keeps;
    [videoRefCurrent] tells whether a video element is attached when the
    cleanup runs. *)
Definition cleanup (host : Host) (videoUrl : string) (videoRefCurrent : bool)
  : Eff unit :=
  console_log [text "Cleaning up..."] ;;;
  (if negb (String.eqb videoUrl "") then
     console_log [text ("Revoking object URL: " ++ videoUrl)] ;;;
     revokeObjectURL videoUrl
   else ret tt) ;;;
  (if videoRefCurrent then
     record VideoPause ;;;
     record (VideoSetSrc "")
   else ret tt) ;;;
  fun w =>
    match renderingEngineRef w with
    | Some _ =>
        (perform host (DisableElement "dicomVP") ;;;
         perform host EngineDestroy ;;;
         setRenderingEngineRef None) w
    | None => (Fulfilled tt, w)
    end.

End Player.

(** The message [handleDicomFile] leaves in the banner for an error. *)
Definition renderFailure (e : Error) : string :=
  "Failed to render DICOM file: " ++ e
  ++ ". Ensure Cornerstone.js and its dependencies are properly installed.".

(** A browser and an engine where everything works: object URLs are
    numbered, a video lasts twelve seconds. *)
Definition quietHost : Player.Host :=
  {| Player.engine := fun _ _ => None;
     Player.collaborator := blankCollaborator;
     Player.objectUrl := fun n => "blob:" ++ decimal (N.of_nat n);
     Player.videoMetadata := fun _ => Fulfilled (Player.JsRatio 12 1);
     Player.imageLoads := fun _ => true |}.

(** The same with an engine that cannot enable the element and media that
    do not load. *)
Definition stubbornHost : Player.Host :=
  {| Player.engine := fun _ c =>
       match c with
       | Player.EnableElement _ _ => Some "element is not a div"
       | _ => None
       end;
     Player.collaborator := blankCollaborator;
     Player.objectUrl := fun n => "blob:" ++ decimal (N.of_nat n);
     Player.videoMetadata := fun _ => Rejected "decode";
     Player.imageLoads := fun _ => false |}.

(** * Properties *)

(** ** Strings *)
Section StringFacts.

Lemma toLowerCase_app (a b : string) :
  toLowerCase (a ++ b) = toLowerCase a ++ toLowerCase b.
Proof.
  induction a as [|c a IH]; simpl; [reflexivity | now rewrite IH].
Qed.

Lemma toLowerCase_split (s x y : string) :
  toLowerCase s = x ++ y ->
  exists s1 s2, s = s1 ++ s2 /\ toLowerCase s1 = x /\ toLowerCase s2 = y.
Proof.
  revert s; induction x as [|c x IH]; intros s H; simpl in H.
  - exists "", s. auto.
  - destruct s as [|d s]; simpl in H; [discriminate|].
    injection H as Hc Hs.
    destruct (IH _ Hs) as (s1 & s2 & -> & H1 & H2).
    exists (String d s1), s2. simpl. now rewrite Hc, H1.
Qed.

Lemma length_app (a b : string) :
  String.length (a ++ b) = String.length a + String.length b.
Proof.
  induction a as [|c a IH]; simpl; [reflexivity | now rewrite IH].
Qed.

Lemma substring_app_suffix (pre t : string) :
  substring (String.length pre) (String.length t) (pre ++ t) = t.
Proof.
  induction pre as [|c pre IH]; simpl.
  - induction t as [|c t IH]; simpl; [reflexivity | now rewrite IH].
  - exact IH.
Qed.

Lemma substring_split (s : string) (n m : nat) :
  n + m = String.length s ->
  s = substring 0 n s ++ substring n m s.
Proof.
  revert n m; induction s as [|c s IH]; intros n m H; simpl in H.
  - assert (n = 0) by lia. assert (m = 0) by lia. now subst.
  - destruct n as [|n]; simpl.
    + destruct m as [|m]; [discriminate|].
      injection H as H. f_equal.
      specialize (IH 0 m H). simpl in IH.
      destruct s; simpl in *; exact IH.
    + f_equal. apply IH. lia.
Qed.

Lemma endsWith_iff (s t : string) :
  endsWith s t = true <-> exists pre, s = pre ++ t.
Proof.
  unfold endsWith. split.
  - destruct (Nat.leb_spec (String.length t) (String.length s)) as [Hle|];
      [|discriminate].
    intros H. apply String.eqb_eq in H.
    exists (substring 0 (String.length s - String.length t) s).
    pose proof (substring_split s (String.length s - String.length t)
                  (String.length t)) as Hs.
    rewrite H in Hs. apply Hs. lia.
  - intros [pre ->]. rewrite length_app.
    replace (String.length pre + String.length t - String.length t)
      with (String.length pre) by lia.
    rewrite substring_app_suffix, String.eqb_refl.
    destruct (Nat.leb_spec (String.length t) (String.length pre + String.length t));
      [reflexivity | lia].
Qed.



Lemma existsb_In {A : Type} (p : A -> bool) (x : A) (l : list A) :
  In x l -> p x = true -> existsb p l = true.
Proof.
  intros Hin Hp. apply existsb_exists. now exists x.
Qed.

End StringFacts.

(** ** Validation *)

Example validateFile_at_limit :
  validateFile (mkFile "ct.dcm" "application/dicom" 209715200)
  = {| isValid := true; errors := [] |}.
Proof. reflexivity. Qed.

Example validateFile_over_limit :
  validateFile (mkFile "ct.dcm" "application/dicom" 209715201)
  = {| isValid := false; errors := ["File too large (200.0 MB > 200MB)"] |}.
Proof. reflexivity. Qed.

Example validateFile_empty :
  validateFile (mkFile "ct.dcm" "application/dicom" 0)
  = {| isValid := false; errors := ["File is empty"] |}.
Proof. reflexivity. Qed.

(** C3.  [validateFile] applies the size rule and then the emptiness rule,
    each on its own: the errors are the "File too large" message when the
    size exceeds 209,715,200 bytes, followed by "File is empty" when the size
    is 0.  A size in (0, 200 MiB], the bound included, gives
    [isValid = true] and no error; [isValid] is [true] exactly when there is
    no error; and, the two conditions excluding each other, there is at most
    one error. *)
Theorem validateFile_rules (f : File) :
  errors (validateFile f)
  = List.app
      (if (209715200 <? size f)%N
       then ["File too large (" ++ getFileSize f ++ " > 200MB)"] else [])
      (if (size f =? 0)%N then ["File is empty"] else [])
  /\ ((0 < size f <= 209715200)%N ->
      validateFile f = {| isValid := true; errors := [] |})
  /\ (isValid (validateFile f) = true <-> errors (validateFile f) = [])
  /\ (List.length (errors (validateFile f)) <= 1)%nat.
Proof.
  unfold validateFile, push.
  change (200 * 1024 * 1024)%N with 209715200%N.
  destruct (N.ltb_spec 209715200 (size f)) as [Hbig|Hsmall];
    destruct (N.eqb_spec (size f) 0) as [Hz|Hnz]; cbn.
  - lia.
  - repeat split; try discriminate; try lia.
  - repeat split; try discriminate; try lia.
  - repeat split; auto.
Qed.

Lemma validateFile_rules_witness :
  (0 < 209715200 <= 209715200)%N
  /\ validateFile (mkFile "ct.dcm" "application/dicom" 209715200)
     = {| isValid := true; errors := [] |}.
Proof.
  split; [lia|].
  apply (proj1 (proj2 (validateFile_rules
                         (mkFile "ct.dcm" "application/dicom" 209715200)))).
  simpl; lia.
Defined.

(** ** DICOM detection *)

Ltac each_unit c :=
  destruct c as [[] [] [] [] [] [] [] []]; vm_compute; intros H;
  try discriminate H; auto.

Lemma lower_is_dot (c : ascii) : toLowerCaseUnit c = "."%char -> c = "."%char.
Proof. each_unit c. Qed.

Lemma lower_is_d (c : ascii) :
  toLowerCaseUnit c = "d"%char -> c = "d"%char \/ c = "D"%char.
Proof. each_unit c. Qed.

Lemma lower_is_c (c : ascii) :
  toLowerCaseUnit c = "c"%char -> c = "c"%char \/ c = "C"%char.
Proof. each_unit c. Qed.

Lemma lower_is_m (c : ascii) :
  toLowerCaseUnit c = "m"%char -> c = "m"%char \/ c = "M"%char.
Proof. each_unit c. Qed.

Lemma lowered_dcm (s : string) :
  endsWith (toLowerCase s) ".dcm" = true <-> endsWithDcmAnyCase s.
Proof.
  rewrite endsWith_iff. split.
  - intros [pre H].
    destruct (toLowerCase_split _ _ _ H) as (s1 & s2 & -> & _ & H2).
    destruct s2 as [|a [|d [|c [|m [|x s2]]]]]; simpl in H2; try discriminate H2.
    injection H2 as Ha Hd Hc Hm.
    apply lower_is_dot in Ha. subst a.
    exists s1, d, c, m. repeat split;
      auto using lower_is_d, lower_is_c, lower_is_m.
  - intros (pre & d & c & m & -> & Hd & Hc & Hm).
    exists (toLowerCase pre). rewrite toLowerCase_app. f_equal.
    destruct Hd, Hc, Hm; subst; reflexivity.
Qed.

(** C5.  A file is a DICOM candidate exactly when its name ends with ".dcm"
    in any mix of upper and lower case or its declared MIME type is
    "application/dicom"; the names FILE.DCM, file.dcm and File.Dcm make a
    file a candidate whatever its MIME type. *)
Theorem isDicomFile_iff :
  (forall f : File,
      isDicomFile f = true
      <-> endsWithDcmAnyCase (name f) \/ type f = "application/dicom")
  /\ (forall (mime : string) (bytes : N),
         isDicomFile (mkFile "FILE.DCM" mime bytes) = true
         /\ isDicomFile (mkFile "file.dcm" mime bytes) = true
         /\ isDicomFile (mkFile "File.Dcm" mime bytes) = true).
Proof.
  split.
  - intros f. unfold isDicomFile.
    now rewrite orb_true_iff, lowered_dcm, String.eqb_eq.
  - intros mime bytes. repeat split; reflexivity.
Qed.

(** ** The classifier *)
Section Classifier.

Variable cs : Collaborator.

(** [isDicomVideo] reads the probe, decides on it, and turns a failed read
    into [false] with one console line. *)
Lemma isDicomVideo_readProbe (imageId : string) (c : Console) :
  VideoPlayer.isDicomVideo cs imageId c
  = match readProbe cs imageId with
    | Fulfilled p =>
        (Fulfilled (VideoPlayer.arrayIncludes VideoPlayer.videoSopClasses
                      (probedSopClassUID p)
                    || (1 <? probedNumberOfFrames p)%Z), c)
    | Rejected e =>
        (Fulfilled false, push c ("Error checking if DICOM is video:", e))
    end.
Proof.
  unfold VideoPlayer.isDicomVideo, readProbe, tryCatch, bind, call, ret,
    console_error.
  destruct (metaData_get_sopCommonModule cs imageId) as [sc|e]; [|reflexivity].
  destruct (metaData_get_multiframeModule cs imageId) as [mf|e]; [|reflexivity].
  destruct (truthyNumber (optionalChain mf numberOfFrames)) as [n|]; [reflexivity|].
  destruct (metaData_get_numberOfFrames cs imageId) as [direct|e]; [|reflexivity].
  destruct (truthyNumber direct); reflexivity.
Qed.

(** The DICOM branch of [getDetailedFileType], case by case. *)
Lemma getDetailedFileType_dicom (f : File) (c : Console) :
  isDicomFile f = true ->
  getDetailedFileType cs f c
  = match import_VideoPlayer cs with
    | Rejected e =>
        (Fulfilled dicom_image, push c ("Error checking DICOM type:", e))
    | Fulfilled _ =>
        match fileManager_add cs f with
        | Rejected e =>
            (Fulfilled dicom_image, push c ("Error checking DICOM type:", e))
        | Fulfilled imageId =>
            match readProbe cs imageId with
            | Fulfilled p =>
                (Fulfilled
                   (if VideoPlayer.arrayIncludes VideoPlayer.videoSopClasses
                         (probedSopClassUID p)
                       || (1 <? probedNumberOfFrames p)%Z
                    then dicom_video else dicom_image), c)
            | Rejected e =>
                (Fulfilled dicom_image,
                 push c ("Error checking if DICOM is video:", e))
            end
        end
    end.
Proof.
  intros Hd. unfold getDetailedFileType. rewrite Hd.
  unfold tryCatch, bind, VideoPlayer.fileToImageId, call, ret, console_error.
  destruct (import_VideoPlayer cs) as [u|e]; [|reflexivity].
  destruct (fileManager_add cs f) as [imageId|e]; [|reflexivity].
  rewrite isDicomVideo_readProbe.
  destruct (readProbe cs imageId) as [p|e]; reflexivity.
Qed.

Lemma getDetailedFileType_regular (f : File) (c : Console) :
  isDicomFile f = false ->
  getDetailedFileType cs f c
  = (Fulfilled (if isVideoFile f then regular_video
                else if isImageFile f then regular_image
                else unknown), c).
Proof.
  intros Hd. unfold getDetailedFileType. rewrite Hd.
  destruct (isVideoFile f); [reflexivity|].
  destruct (isImageFile f); reflexivity.
Qed.

Lemma arrayIncludes_In (l : list string) (x : string) :
  VideoPlayer.arrayIncludes l x = true <-> In x l.
Proof.
  unfold VideoPlayer.arrayIncludes. rewrite existsb_exists. split.
  - intros (y & Hy & He). apply String.eqb_eq in He. now subst.
  - intros H. exists x. split; [assumption | apply String.eqb_refl].
Qed.

End Classifier.

Lemma truthyNumber_falsy (v : option Z) :
  truthyNumber v = None <-> falsyNumber v.
Proof.
  unfold truthyNumber, falsyNumber. destruct v as [n|].
  - destruct (Z.eqb_spec n 0) as [->|Hn]; split; auto; try discriminate.
    intros [H|H]; [discriminate | congruence].
  - split; auto.
Qed.

Lemma readProbe_throws (cs : Collaborator) (imageId : string) (e : Error) :
  readProbe cs imageId = Rejected e <-> probeThrows cs imageId e.
Proof.
  unfold readProbe, probeThrows. split.
  - destruct (metaData_get_sopCommonModule cs imageId) as [sc|e1].
    + destruct (metaData_get_multiframeModule cs imageId) as [mf|e2].
      * destruct (truthyNumber (optionalChain mf numberOfFrames)) as [n|] eqn:Hn;
          [discriminate|].
        destruct (metaData_get_numberOfFrames cs imageId) as [d|e3];
          [discriminate|].
        intros H. injection H as ->. right; right. exists sc, mf.
        repeat split; auto. now apply truthyNumber_falsy.
      * intros H. injection H as ->. right; left. now exists sc.
    + intros H. injection H as ->. now left.
  - intros [H|[(sc & H1 & H2)|(sc & mf & H1 & H2 & H3 & H4)]].
    + now rewrite H.
    + now rewrite H1, H2.
    + apply truthyNumber_falsy in H3. now rewrite H1, H2, H3, H4.
Qed.

(** The tag as a function of the file and of the probe outcome alone. *)
Lemma classification_eq (cs : Collaborator) (f : File) (c : Console) :
  classification cs f c
  = if isDicomFile f
    then match probeOutcome cs f with
         | Fulfilled p =>
             Fulfilled
               (if VideoPlayer.arrayIncludes
                     VideoPlayer.videoSopClasses (probedSopClassUID p)
                   || (1 <? probedNumberOfFrames p)%Z
                then dicom_video else dicom_image)
         | Rejected _ => Fulfilled dicom_image
         end
    else Fulfilled (if isVideoFile f then regular_video
                    else if isImageFile f then regular_image
                    else unknown).
Proof.
  unfold classification, probeOutcome.
  destruct (isDicomFile f) eqn:Hd.
  - rewrite (getDetailedFileType_dicom cs f c Hd).
    destruct (import_VideoPlayer cs); [|reflexivity].
    destruct (fileManager_add cs f) as [imageId|]; [|reflexivity].
    destruct (readProbe cs imageId); reflexivity.
  - now rewrite (getDetailedFileType_regular cs f c Hd).
Qed.

(** Every error is caught before it reaches the caller. *)
Lemma always_fulfilled (cs : Collaborator) (f : File) (c : Console) :
  exists tag c', getDetailedFileType cs f c = (Fulfilled tag, c').
Proof.
  destruct (isDicomFile f) eqn:Hd.
  - rewrite (getDetailedFileType_dicom cs f c Hd).
    destruct (import_VideoPlayer cs); [|eexists _, _; reflexivity].
    destruct (fileManager_add cs f) as [imageId|]; [|eexists _, _; reflexivity].
    destruct (readProbe cs imageId); eexists _, _; reflexivity.
  - rewrite (getDetailedFileType_regular cs f c Hd). eexists _, _; reflexivity.
Qed.

Lemma classification_any_console (cs : Collaborator) (f : File)
  (c c' : Console) :
  classification cs f c = classification cs f c'.
Proof. now rewrite !classification_eq. Qed.

(** C1.  For a DICOM candidate whose registration and metadata reads
    succeed, the classification is dicom-video exactly when the probed SOP
    class UID is one of the eight video UIDs or the probed frame count
    exceeds 1, and dicom-image otherwise; five frames with a SOP class
    outside the list give dicom-video. *)
Theorem dicom_video_iff (cs : Collaborator) (f : File) (c : Console)
  (imageId : string) (p : DicomProbe) :
  isDicomFile f = true ->
  import_VideoPlayer cs = Fulfilled tt ->
  fileManager_add cs f = Fulfilled imageId ->
  readProbe cs imageId = Fulfilled p ->
  VideoPlayer.videoSopClasses
  = [ "1.2.840.10008.5.1.4.1.1.77.1.1.1"; "1.2.840.10008.5.1.4.1.1.77.1.2.1";
      "1.2.840.10008.5.1.4.1.1.77.1.4.1"; "1.2.840.10008.5.1.4.1.1.181.1";
      "1.2.840.10008.5.1.4.1.1.6.2"; "1.2.840.10008.5.1.4.1.1.3.1";
      "1.2.840.10008.5.1.4.1.1.12.1"; "1.2.840.10008.5.1.4.1.1.12.2" ]
  /\ (classification cs f c = Fulfilled dicom_video
      <-> In (probedSopClassUID p) VideoPlayer.videoSopClasses
          \/ (1 < probedNumberOfFrames p)%Z)
  /\ (~ (In (probedSopClassUID p) VideoPlayer.videoSopClasses
         \/ (1 < probedNumberOfFrames p)%Z) ->
      classification cs f c = Fulfilled dicom_image)
  /\ (~ In (probedSopClassUID p) VideoPlayer.videoSopClasses ->
      probedNumberOfFrames p = 5%Z ->
      classification cs f c = Fulfilled dicom_video).
Proof.
  intros Hd Hi Ha Hp. unfold classification.
  rewrite (getDetailedFileType_dicom cs f c Hd), Hi, Ha, Hp. cbn [fst].
  split; [reflexivity|].
  destruct (VideoPlayer.arrayIncludes VideoPlayer.videoSopClasses
              (probedSopClassUID p)) eqn:Hs;
    destruct (Z.ltb_spec 1 (probedNumberOfFrames p)) as [Hn|Hn]; cbn [orb].
  - apply arrayIncludes_In in Hs. repeat split; auto. tauto.
  - apply arrayIncludes_In in Hs. repeat split; auto; tauto.
  - repeat split; auto. tauto.
  - assert (Hnot : ~ In (probedSopClassUID p) VideoPlayer.videoSopClasses).
    { intros H. apply arrayIncludes_In in H. congruence. }
    repeat split; auto.
    + discriminate.
    + intros [H|H]; [tauto | lia].
    + intros _ H5. lia.
Qed.

Lemma dicom_video_iff_witness :
  classification (enhancedCT (Some 5%Z)) (mkFile "cine.dcm" "" 4096) []
  = Fulfilled dicom_video.
Proof.
  refine (proj2 (proj2 (proj2
    (dicom_video_iff (enhancedCT (Some 5%Z)) (mkFile "cine.dcm" "" 4096) []
       "dicomfile:0" (mkProbe "1.2.840.10008.5.1.4.1.1.2.1" 5)
       eq_refl eq_refl eq_refl eq_refl))) _ eq_refl).
  vm_compute. intros H.
  repeat (destruct H as [H|H]; [discriminate H|]). exact H.
Defined.

(** C2.  When the metadata probe of a DICOM candidate throws, the call is
    fulfilled with dicom-image: the error is caught inside [isDicomVideo],
    printed on the console, and never reaches the caller as a rejection. *)
Theorem probe_failure_gives_dicom_image (cs : Collaborator) (f : File)
  (c : Console) (imageId : string) (e : Error) :
  isDicomFile f = true ->
  import_VideoPlayer cs = Fulfilled tt ->
  fileManager_add cs f = Fulfilled imageId ->
  probeThrows cs imageId e ->
  getDetailedFileType cs f c
  = (Fulfilled dicom_image, push c ("Error checking if DICOM is video:", e))
  /\ (forall e', classification cs f c <> Rejected e').
Proof.
  intros Hd Hi Ha Ht. apply readProbe_throws in Ht. unfold classification.
  rewrite (getDetailedFileType_dicom cs f c Hd), Hi, Ha, Ht.
  split; [reflexivity | discriminate].
Qed.

Lemma probe_failure_gives_dicom_image_witness :
  getDetailedFileType brokenMetadata (mkFile "broken.dcm" "" 128) []
  = (Fulfilled dicom_image,
     [("Error checking if DICOM is video:", "no provider")]).
Proof.
  refine (proj1 (probe_failure_gives_dicom_image brokenMetadata
                   (mkFile "broken.dcm" "" 128) [] "dicomfile:0" "no provider"
                   eq_refl eq_refl eq_refl _)).
  left. reflexivity.
Defined.

(** C9.  [getDetailedFileType] always settles fulfilled, with one of the
    five tags, whatever the collaborator does; when registering a DICOM
    candidate throws, the tag is dicom-image, as for a failed probe. *)
Theorem getDetailedFileType_total (cs : Collaborator) (f : File) (c : Console) :
  (exists tag c',
      getDetailedFileType cs f c = (Fulfilled tag, c')
      /\ In tag [dicom_video; dicom_image; regular_video; regular_image; unknown])
  /\ (forall e,
         isDicomFile f = true ->
         import_VideoPlayer cs = Fulfilled tt ->
         fileManager_add cs f = Rejected e ->
         getDetailedFileType cs f c
         = (Fulfilled dicom_image, push c ("Error checking DICOM type:", e))).
Proof.
  split.
  - destruct (always_fulfilled cs f c) as (tag & c' & E).
    exists tag, c'. split; [exact E|].
    destruct tag; cbn; auto 6.
  - intros e Hd Hi Ha.
    now rewrite (getDetailedFileType_dicom cs f c Hd), Hi, Ha.
Qed.

Lemma getDetailedFileType_total_witness :
  getDetailedFileType brokenLoader (mkFile "scan.dcm" "" 128) []
  = (Fulfilled dicom_image, [("Error checking DICOM type:", "cannot add file")]).
Proof.
  exact (proj2 (getDetailedFileType_total brokenLoader
                  (mkFile "scan.dcm" "" 128) [])
           "cannot add file" eq_refl eq_refl eq_refl).
Defined.

(** C10.  When the multi-frame module's frame count and the direct
    ["numberOfFrames"] lookup are both falsy ([undefined] or 0), the probed
    frame count is the default 1, for 0 as for [undefined]; the file then
    classifies as dicom-image whenever its SOP class is outside the video
    list. *)
Theorem falsy_frame_count_defaults_to_one (cs : Collaborator) (f : File)
  (c : Console) (imageId : string) (sopCommonModule : option SopCommonModule)
  (multiframeModule : option MultiframeModule) (direct : option Z) :
  isDicomFile f = true ->
  import_VideoPlayer cs = Fulfilled tt ->
  fileManager_add cs f = Fulfilled imageId ->
  metaData_get_sopCommonModule cs imageId = Fulfilled sopCommonModule ->
  metaData_get_multiframeModule cs imageId = Fulfilled multiframeModule ->
  metaData_get_numberOfFrames cs imageId = Fulfilled direct ->
  falsyNumber (optionalChain multiframeModule numberOfFrames) ->
  falsyNumber direct ->
  exists p,
    readProbe cs imageId = Fulfilled p
    /\ probedNumberOfFrames p = 1%Z
    /\ (~ In (probedSopClassUID p) VideoPlayer.videoSopClasses ->
        classification cs f c = Fulfilled dicom_image).
Proof.
  intros Hd Hi Ha Hs Hm Hn Hf1 Hf2.
  apply truthyNumber_falsy in Hf1, Hf2.
  eexists. split; [|split].
  - unfold readProbe. rewrite Hs, Hm, Hf1, Hn, Hf2. reflexivity.
  - reflexivity.
  - cbn [probedSopClassUID]. intros Hnot. unfold classification.
    rewrite (getDetailedFileType_dicom cs f c Hd), Hi, Ha.
    unfold readProbe. rewrite Hs, Hm, Hf1, Hn, Hf2.
    cbn [probedSopClassUID probedNumberOfFrames fst].
    destruct (VideoPlayer.arrayIncludes _ _) eqn:Hin.
    + apply arrayIncludes_In in Hin. contradiction.
    + reflexivity.
Qed.

Lemma falsy_frame_count_defaults_to_one_witness :
  exists p,
    readProbe (enhancedCT (Some 0%Z)) "dicomfile:0" = Fulfilled p
    /\ probedNumberOfFrames p = 1%Z
    /\ (~ In (probedSopClassUID p) VideoPlayer.videoSopClasses ->
        classification (enhancedCT (Some 0%Z)) (mkFile "slice.dcm" "" 4096) []
        = Fulfilled dicom_image).
Proof.
  refine (falsy_frame_count_defaults_to_one (enhancedCT (Some 0%Z))
            (mkFile "slice.dcm" "" 4096) [] "dicomfile:0" _ _ _
            eq_refl eq_refl eq_refl eq_refl eq_refl eq_refl _ _).
  - right. reflexivity.
  - left. reflexivity.
Defined.

(** C8.  The tag depends on nothing but the file's name, its declared MIME
    type and the outcome of the metadata probe: two calls that agree on
    these settle with the same tag, and a second call on the same file, run
    after the first, repeats its result. *)
Theorem classification_deterministic (cs1 cs2 : Collaborator) (f1 f2 : File)
  (c1 c2 : Console) :
  name f1 = name f2 ->
  type f1 = type f2 ->
  probeOutcome cs1 f1 = probeOutcome cs2 f2 ->
  classification cs1 f1 c1 = classification cs2 f2 c2
  /\ classification cs1 f1 (snd (getDetailedFileType cs1 f1 c1))
     = classification cs1 f1 c1.
Proof.
  intros Hn Ht Hp.
  split.
  - rewrite !classification_eq, Hp.
    unfold isDicomFile, isVideoFile, isImageFile. now rewrite Hn, Ht.
  - apply classification_any_console.
Qed.

Lemma classification_deterministic_witness :
  classification (enhancedCT (Some 5%Z)) (mkFile "cine.dcm" "" 4096) []
  = classification (enhancedCTDirect (Some 5%Z)) (mkFile "cine.dcm" "" 9000)
      [("earlier line", "earlier error")].
Proof.
  exact (proj1 (classification_deterministic
                  (enhancedCT (Some 5%Z)) (enhancedCTDirect (Some 5%Z))
                  (mkFile "cine.dcm" "" 4096) (mkFile "cine.dcm" "" 9000)
                  [] [("earlier line", "earlier error")]
                  eq_refl eq_refl eq_refl)).
Defined.

(** ** Decision order *)

Example classify_video_mp4 :
  getDetailedFileType blankCollaborator (mkFile "video.mp4" "video/mp4" 1000) []
  = (Fulfilled regular_video, []).
Proof. reflexivity. Qed.

(** A name ending in ".dcm" wins over a declared type that names both a
    video and an image format. *)
Lemma dicom_wins_over_video_and_image :
  isDicomFile (mkFile "echo.dcm" "video/mp4, image/png" 4096) = true
  /\ isVideoFile (mkFile "echo.dcm" "video/mp4, image/png" 4096) = true
  /\ isImageFile (mkFile "echo.dcm" "video/mp4, image/png" 4096) = true
  /\ classification blankCollaborator
       (mkFile "echo.dcm" "video/mp4, image/png" 4096) []
     = Fulfilled dicom_image
  /\ classification blankCollaborator
       (mkFile "echo.dcm" "video/mp4, image/png" 4096) []
     <> Fulfilled regular_video.
Proof. repeat split; discriminate. Qed.

(** C4.  The DICOM test is tried first, then the video test, then the
    image test, and the first that holds decides: a DICOM candidate is
    dicom-video or dicom-image whatever the other two tests say; a file that
    comes to the video test and passes it is regular-video, also when it
    would pass the image test; failing that, a file passing the image test
    is regular-image; a file passing none is unknown.  video.mp4 with type
    video/mp4 is regular-video, scan.png with an empty type is
    regular-image, data.xyz with an empty type is unknown. *)
Theorem decision_order (cs : Collaborator) (f : File) (c : Console) :
  (isDicomFile f = true ->
   classification cs f c = Fulfilled dicom_video
   \/ classification cs f c = Fulfilled dicom_image)
  /\ (isDicomFile f = false -> isVideoFile f = true ->
      getDetailedFileType cs f c = (Fulfilled regular_video, c))
  /\ (isDicomFile f = false -> isVideoFile f = false -> isImageFile f = true ->
      getDetailedFileType cs f c = (Fulfilled regular_image, c))
  /\ (isDicomFile f = false -> isVideoFile f = false -> isImageFile f = false ->
      getDetailedFileType cs f c = (Fulfilled unknown, c))
  /\ (forall bytes : N,
         getDetailedFileType cs (mkFile "video.mp4" "video/mp4" bytes) c
         = (Fulfilled regular_video, c)
         /\ getDetailedFileType cs (mkFile "scan.png" "" bytes) c
            = (Fulfilled regular_image, c)
         /\ getDetailedFileType cs (mkFile "data.xyz" "" bytes) c
            = (Fulfilled unknown, c)).
Proof.
  split; [|split; [|split; [|split]]].
  - intros Hd. rewrite classification_eq, Hd.
    destruct (probeOutcome cs f) as [p|]; [|now right].
    destruct (_ || _); [now left | now right].
  - intros Hd Hv. now rewrite (getDetailedFileType_regular cs f c Hd), Hv.
  - intros Hd Hv Hi. now rewrite (getDetailedFileType_regular cs f c Hd), Hv, Hi.
  - intros Hd Hv Hi. now rewrite (getDetailedFileType_regular cs f c Hd), Hv, Hi.
  - intros bytes. repeat split; reflexivity.
Qed.

Lemma decision_order_witness :
  getDetailedFileType blankCollaborator
    (mkFile "frame.png" "video/mp4, image/png" 4096) []
  = (Fulfilled regular_video, []).
Proof.
  exact (proj1 (proj2 (decision_order blankCollaborator
                         (mkFile "frame.png" "video/mp4, image/png" 4096) []))
           eq_refl eq_refl).
Defined.

(** ** Extension and MIME tests *)


Lemma endsWith_lowered (s pre suf ext : string) :
  s = pre ++ suf -> toLowerCase suf = ext ->
  endsWith (toLowerCase s) ext = true.
Proof.
  intros -> <-. apply endsWith_iff.
  exists (toLowerCase pre). apply toLowerCase_app.
Qed.














(** ** The upload state machine *)

Lemma run_snoc (cs : Collaborator) (events : list Event) (e : Event) :
  run cs (events ++ [e]) = step cs (run cs events) e.
Proof. unfold run. now rewrite fold_left_app. Qed.

Lemma step_consistent (cs : Collaborator) (p : Page) (e : Event) :
  displayedPairConsistent cs (state p) ->
  displayedPairConsistent cs (state (step cs p e)).
Proof.
  intros H. destruct e as [uploaded|dropped| |i]; cbn [step].
  - unfold handleUpload_begin.
    destruct uploaded as [f|]; [destruct (negb _)|]; reflexivity.
  - unfold handleDrop_begin.
    destruct dropped as [f|]; [destruct (negb _)|]; exact H.
  - reflexivity.
  - destruct (nth_error (pending p) i) as [[h f]|]; [|exact H].
    destruct (getDetailedFileType cs f (console p)) as [settled c'] eqn:E.
    assert (Hs : classification cs f (console p) = settled)
      by (unfold classification; now rewrite E).
    destruct h, settled as [tag|message]; cbn; try exact H;
      intros c; now rewrite (classification_any_console cs f c (console p)).
Qed.

Lemma run_consistent (cs : Collaborator) (events : list Event) :
  displayedPairConsistent cs (state (run cs events)).
Proof.
  induction events as [|e events IH] using rev_ind.
  - reflexivity.
  - rewrite run_snoc. now apply step_consistent.
Qed.

(** The user dropped cine.dcm and then video.mp4; the video is on display
    when the classification of cine.dcm settles, and the page then shows
    cine.dcm as dicom-video although the latest selection is video.mp4. *)
Lemma stale_result_replaces_display :
  nth_error (pending (run (enhancedCT (Some 5%Z)) twoDrops)) 0
  = Some (ByDrop, cineFile)
  /\ selected (run (enhancedCT (Some 5%Z)) twoDrops) = Some clipFile
  /\ file (state (run (enhancedCT (Some 5%Z)) twoDrops)) = Some clipFile
  /\ fileType (state (run (enhancedCT (Some 5%Z)) twoDrops)) = regular_video
  /\ cineFile <> clipFile
  /\ selected (run (enhancedCT (Some 5%Z)) (twoDrops ++ [Settle 0]))
     = Some clipFile
  /\ file (state (run (enhancedCT (Some 5%Z)) (twoDrops ++ [Settle 0])))
     = Some cineFile
  /\ fileType (state (run (enhancedCT (Some 5%Z)) (twoDrops ++ [Settle 0])))
     = dicom_video.
Proof. repeat split; discriminate. Qed.

(** C7 (amended).  The page never shows a file with another file's tag: it
    shows no file and unknown, or a file with the classification computed
    for that file.  When an awaited classification settles, its tag and its
    file are put on display together, whatever the user selected in the
    meantime; no comparison with the latest selection is made. *)
Theorem settled_result_is_displayed (cs : Collaborator) (events : list Event) :
  displayedPairConsistent cs (state (run cs events))
  /\ (forall i h f,
         nth_error (pending (run cs events)) i = Some (h, f) ->
         file (state (run cs (events ++ [Settle i]))) = Some f
         /\ classification cs f (console (run cs events))
            = Fulfilled (fileType (state (run cs (events ++ [Settle i]))))
         /\ isLoading (state (run cs (events ++ [Settle i]))) = false
         /\ selected (run cs (events ++ [Settle i])) = selected (run cs events)).
Proof.
  split; [apply run_consistent|].
  intros i h f Hp. rewrite run_snoc. cbn [step]. rewrite Hp.
  destruct (always_fulfilled cs f (console (run cs events)))
    as (tag & c' & E).
  unfold classification. rewrite E.
  destruct h; repeat split.
Qed.

Lemma settled_result_is_displayed_witness :
  file (state (run (enhancedCT (Some 5%Z)) (twoDrops ++ [Settle 0])))
  = Some cineFile.
Proof.
  exact (proj1 (proj2 (settled_result_is_displayed (enhancedCT (Some 5%Z))
                         twoDrops) 0 ByDrop cineFile eq_refl)).
Defined.

(** * Further properties of the code *)

(** ** Sizes and their display *)

Lemma isValid_validSize (f : File) :
  isValid (validateFile f) = true <-> validSize f.
Proof.
  unfold validateFile, validSize, push.
  change (200 * 1024 * 1024)%N with 209715200%N.
  destruct (N.ltb_spec 209715200 (size f));
    destruct (N.eqb_spec (size f) 0); cbn; split; intros; try lia;
    try discriminate; reflexivity.
Qed.

Lemma tenths_unique (num den n : N) :
  (den <> 0)%N ->
  (2 * den * n <= 20 * num + den < 2 * den * (n + 1))%N ->
  ((20 * num + den) / (2 * den) = n)%N.
Proof.
  intros Hd [Hlo Hhi]. symmetry.
  apply (N.div_unique _ _ _ (20 * num + den - 2 * den * n)); lia.
Qed.

(** X1.  A size in the last 51 bytes below 1 MiB is shown in kilobytes as
    "1024.0 KB": the kilobyte figure is rounded to one decimal and never
    carried over into the megabyte unit. *)
Theorem getFileSize_kilobytes_do_not_carry (f : File) :
  (1048525 <= size f < 1048576)%N ->
  getFileSize f = "1024.0 KB".
Proof.
  intros H. unfold getFileSize, toFixed1.
  destruct (N.ltb_spec (size f) 1024) as [Hs|_]; [lia|].
  destruct (N.ltb_spec (size f) (1024 * 1024)) as [_|Hs]; [|lia].
  rewrite (tenths_unique (size f) 1024 10240) by lia.
  reflexivity.
Qed.

Lemma getFileSize_kilobytes_do_not_carry_witness :
  getFileSize (mkFile "almost.bin" "" 1048575) = "1024.0 KB".
Proof.
  apply (getFileSize_kilobytes_do_not_carry (mkFile "almost.bin" "" 1048575)).
  cbn; lia.
Defined.

(** X2.  A file over the limit is refused with one message, which gives the
    size in megabytes, at least 200.0; for the 52,428 sizes just over the
    limit the message reads "File too large (200.0 MB > 200MB)". *)
Theorem too_large_message (f : File) :
  (209715200 < size f)%N ->
  validateFile f
  = {| isValid := false;
       errors := ["File too large (" ++ getFileSize f ++ " > 200MB)"] |}
  /\ getFileSize f = toFixed1 (size f) (1024 * 1024) ++ " MB"
  /\ (2000 <= (20 * size f + 1024 * 1024) / (2 * (1024 * 1024)))%N
  /\ ((size f <= 209767628)%N ->
      errors (validateFile f) = ["File too large (200.0 MB > 200MB)"]).
Proof.
  intros H.
  assert (Hv : validateFile f
               = {| isValid := false;
                    errors := ["File too large (" ++ getFileSize f
                               ++ " > 200MB)"] |}).
  { unfold validateFile, push.
    change (200 * 1024 * 1024)%N with 209715200%N.
    destruct (N.ltb_spec 209715200 (size f)); [|lia].
    destruct (N.eqb_spec (size f) 0); [lia|].
    reflexivity. }
  assert (Hg : getFileSize f = toFixed1 (size f) (1024 * 1024) ++ " MB").
  { unfold getFileSize.
    destruct (N.ltb_spec (size f) 1024); [lia|].
    destruct (N.ltb_spec (size f) (1024 * 1024)); [lia|].
    reflexivity. }
  split; [exact Hv|split; [exact Hg|split]].
  - apply N.div_le_lower_bound; lia.
  - intros Hle. rewrite Hv. cbn [errors]. rewrite Hg. unfold toFixed1.
    rewrite (tenths_unique (size f) (1024 * 1024) 2000) by lia.
    reflexivity.
Qed.

Lemma too_large_message_witness :
  errors (validateFile (mkFile "big.dcm" "" 209715201))
  = ["File too large (200.0 MB > 200MB)"].
Proof.
  apply (proj2 (proj2 (proj2 (too_large_message
                                (mkFile "big.dcm" "" 209715201)
                                ltac:(cbn; lia))))).
  cbn; lia.
Defined.

(** ** Extensions *)

Lemma common_suffix (p q a b : string) :
  p ++ a = q ++ b -> String.length a <= String.length b ->
  exists r, b = r ++ a.
Proof.
  revert p; induction q as [|c q IH]; intros p H Hlen.
  - exists p. now rewrite H.
  - destruct p as [|d p].
    + exfalso. apply (f_equal String.length) in H.
      cbn in H. rewrite length_app in H. lia.
    + injection H as _ H. eauto.
Qed.

Lemma endsWith_exclusive (s a b : string) :
  endsWith a b = false -> endsWith b a = false ->
  endsWith s a = true -> endsWith s b = true -> False.
Proof.
  intros Hab Hba Ha Hb.
  apply endsWith_iff in Ha, Hb. destruct Ha as [p Hp], Hb as [q Hq].
  destruct (Nat.le_ge_cases (String.length a) (String.length b)) as [Hl|Hl].
  - destruct (common_suffix p q a b) as [r Hr]; [congruence | assumption |].
    assert (endsWith b a = true) by (apply endsWith_iff; eauto). congruence.
  - destruct (common_suffix q p b a) as [r Hr]; [congruence | assumption |].
    assert (endsWith a b = true) by (apply endsWith_iff; eauto). congruence.
Qed.

Ltac clash :=
  match goal with
  | Ha : endsWith ?s ?a = true, Hb : endsWith ?s ?b = true |- _ =>
      exact (False_ind _ (endsWith_exclusive s a b eq_refl eq_refl Ha Hb))
  end.

Ltac split_tests H :=
  repeat (apply orb_true_iff in H; destruct H as [H|H]); try discriminate H.

(** X3.  For a file with no declared MIME type the three tests exclude one
    another: no name ends in two of the fifteen extensions, so the order of
    the tests plays no part and the extension alone decides. *)
Theorem extension_alone_decides (f : File) :
  type f = "" ->
  (isDicomFile f = true -> isVideoFile f = false /\ isImageFile f = false)
  /\ (isVideoFile f = true -> isImageFile f = false).
Proof.
  intros Ht. unfold isDicomFile, isVideoFile, isImageFile. rewrite Ht.
  cbn [existsb videoMimeTypes imageMimeTypes videoExtensions imageExtensions
       includes prefix orb String.eqb Ascii.eqb Bool.eqb].
  set (lowered := toLowerCase (name f)).
  split.
  - intros Hd. rewrite orb_false_r in Hd. split.
    + destruct (_ || _) eqn:Hv in |- *; [|reflexivity].
      exfalso. split_tests Hv; clash.
    + destruct (_ || _) eqn:Hi in |- *; [|reflexivity].
      exfalso. split_tests Hi; clash.
  - intros Hv.
    destruct (endsWith lowered ".jpg" || _) eqn:Hi in |- *; [|reflexivity].
    exfalso. split_tests Hv; split_tests Hi; clash.
Qed.

Lemma extension_alone_decides_witness :
  isVideoFile (mkFile "HOLIDAY.MPEG" "" 5000) = true
  /\ isImageFile (mkFile "HOLIDAY.MPEG" "" 5000) = false.
Proof.
  split; [reflexivity|].
  exact (proj2 (extension_alone_decides (mkFile "HOLIDAY.MPEG" "" 5000) eq_refl)
           eq_refl).
Defined.

(** X4.  Whatever the file input accepts gets a viewer: a file whose name
    ends, in any letter case, in one of the extensions of the [accept]
    attribute is never classified unknown, whatever its declared type and
    whatever the collaborator does. *)
Theorem accepted_extension_is_classified (cs : Collaborator) (f : File)
  (c : Console) (ext pre suf : string) :
  In ext acceptedExtensions ->
  name f = pre ++ suf ->
  toLowerCase suf = ext ->
  classification cs f c <> Fulfilled unknown.
Proof.
  intros Hin Hn Hl.
  pose proof (endsWith_lowered _ _ _ _ Hn Hl) as He.
  rewrite classification_eq.
  destruct (isDicomFile f) eqn:Hd.
  - destruct (probeOutcome cs f) as [p|]; [destruct (_ || _)|]; discriminate.
  - assert (Hvi : isVideoFile f = true \/ isImageFile f = true).
    { unfold isDicomFile in Hd. apply orb_false_iff in Hd. destruct Hd as [Hd _].
      unfold isVideoFile, isImageFile.
      cbn [existsb videoExtensions imageExtensions].
      cbn in Hin.
      repeat (destruct Hin as [<-|Hin]; [rewrite He in *|]);
        try discriminate Hd; try contradiction;
        rewrite ?orb_true_r; auto. }
    destruct (isVideoFile f); [discriminate|].
    destruct Hvi as [Hv|Hi]; [discriminate|]. rewrite Hi. discriminate.
Qed.

Lemma accepted_extension_is_classified_witness :
  classification brokenLoader (mkFile "Scan.BMP" "application/octet-stream" 77) []
  <> Fulfilled unknown.
Proof.
  apply (accepted_extension_is_classified brokenLoader
           (mkFile "Scan.BMP" "application/octet-stream" 77) []
           ".bmp" "Scan" ".BMP"); [cbn; auto 13 | reflexivity | reflexivity].
Defined.

(** ** The classifier and its collaborator *)

(** X5.  A call prints at most one console line, and prints one only on its
    way to the default: a result other than dicom-image leaves the console
    as it was. *)
Theorem one_line_per_failure (cs : Collaborator) (f : File) (c : Console) :
  snd (getDetailedFileType cs f c) = c
  \/ exists label e,
       getDetailedFileType cs f c = (Fulfilled dicom_image, push c (label, e))
       /\ isDicomFile f = true.
Proof.
  destruct (isDicomFile f) eqn:Hd.
  - rewrite (getDetailedFileType_dicom cs f c Hd).
    destruct (import_VideoPlayer cs) as [u|e]; [|right; eauto].
    destruct (fileManager_add cs f) as [imageId|e]; [|right; eauto].
    destruct (readProbe cs imageId) as [p|e]; [now left | right; eauto].
  - rewrite (getDetailedFileType_regular cs f c Hd). now left.
Qed.

(** X6.  When the multi-frame module gives a truthy frame count the direct
    ["numberOfFrames"] lookup is not made: [isDicomVideo] answers the same
    whatever that lookup would return or throw. *)
Theorem direct_lookup_is_skipped (cs : Collaborator) (imageId : string)
  (c : Console) (sopCommonModule : option SopCommonModule)
  (multiframeModule : MultiframeModule) (n : Z)
  (lookup : string -> Outcome (option Z)) :
  metaData_get_sopCommonModule cs imageId = Fulfilled sopCommonModule ->
  metaData_get_multiframeModule cs imageId = Fulfilled (Some multiframeModule) ->
  numberOfFrames multiframeModule = Some n ->
  n <> 0%Z ->
  VideoPlayer.isDicomVideo (withDirectLookup cs lookup) imageId c
  = VideoPlayer.isDicomVideo cs imageId c
  /\ snd (VideoPlayer.isDicomVideo cs imageId c) = c.
Proof.
  intros Hs Hm Hn Hnz.
  rewrite !isDicomVideo_readProbe. unfold readProbe. cbn.
  rewrite Hs, Hm. cbn. rewrite Hn. cbn.
  destruct (Z.eqb_spec n 0) as [|_]; [contradiction|]. split; reflexivity.
Qed.

Lemma direct_lookup_is_skipped_witness :
  VideoPlayer.isDicomVideo
    (withDirectLookup (enhancedCT (Some 5%Z)) (fun _ => Rejected "no such tag"))
    "dicomfile:0" []
  = VideoPlayer.isDicomVideo (enhancedCT (Some 5%Z)) "dicomfile:0" [].
Proof.
  refine (proj1 (direct_lookup_is_skipped (enhancedCT (Some 5%Z)) "dicomfile:0"
                   [] _ {| numberOfFrames := Some 5%Z |} 5
                   (fun _ => Rejected "no such tag")
                   eq_refl eq_refl eq_refl _)).
  discriminate.
Defined.

(** ** The upload handlers *)

Lemma validateFile_cases (f : File) :
  (validSize f /\ validateFile f = {| isValid := true; errors := [] |})
  \/ (size f = 0%N
      /\ validateFile f = {| isValid := false; errors := ["File is empty"] |})
  \/ ((209715200 < size f)%N
      /\ validateFile f
         = {| isValid := false;
              errors := ["File too large (" ++ getFileSize f ++ " > 200MB)"] |}).
Proof.
  unfold validateFile, validSize, push.
  change (200 * 1024 * 1024)%N with 209715200%N.
  destruct (N.ltb_spec 209715200 (size f));
    destruct (N.eqb_spec (size f) 0); cbn.
  - lia.
  - right; right. auto.
  - right; left. auto.
  - left. split; [lia | reflexivity].
Qed.

Lemma Forall_removeAt {A : Type} (P : A -> Prop) (i : nat) (l : list A) :
  Forall P l -> Forall P (removeAt i l).
Proof.
  intros H. revert i. induction H as [|x l Hx Hl IH]; intros i.
  - destruct i; constructor.
  - destruct i; cbn; [assumption | constructor; auto].
Qed.

Lemma run_invariant (cs : Collaborator) (Inv : Page -> Prop) :
  Inv initialPage ->
  (forall p e, Inv p -> Inv (step cs p e)) ->
  forall events, Inv (run cs events).
Proof.
  intros H0 Hstep events.
  induction events as [|e events IH] using rev_ind.
  - exact H0.
  - rewrite run_snoc. now apply Hstep.
Qed.

(** X7.  Only files that passed [validateFile] are ever classified or
    displayed: in every state of the page the files awaiting classification
    and the file on display, if any, have a size in (0, 200 MiB]. *)
Theorem only_validated_files (cs : Collaborator) (events : list Event) :
  Forall (fun hf => validSize (snd hf)) (pending (run cs events))
  /\ (forall f, file (state (run cs events)) = Some f -> validSize f).
Proof.
  apply (run_invariant cs (fun p =>
           Forall (fun hf => validSize (snd hf)) (pending p)
           /\ (forall f, file (state p) = Some f -> validSize f))).
  - split; [constructor | discriminate].
  - intros p e [Hp Hf]. destruct e as [uploaded|dropped| |i]; cbn [step].
    + unfold handleUpload_begin. destruct uploaded as [f|].
      * destruct (validateFile_cases f) as [[Hv ->]|[[_ ->]|[_ ->]]];
          cbn; (split; [|discriminate]); try assumption.
        unfold push. apply Forall_app. split; [assumption|].
        constructor; [exact Hv | constructor].
      * cbn. split; [assumption | discriminate].
    + unfold handleDrop_begin. destruct dropped as [f|].
      * destruct (validateFile_cases f) as [[Hv ->]|[[_ ->]|[_ ->]]];
          cbn; (split; [|exact Hf]); try assumption.
        unfold push. apply Forall_app. split; [assumption|].
        constructor; [exact Hv | constructor].
      * cbn. split; assumption.
    + cbn. split; [assumption | discriminate].
    + destruct (nth_error (pending p) i) as [[h f]|] eqn:Hn; [|now split].
      assert (Hv : validSize f).
      { apply nth_error_In in Hn.
        exact (proj1 (Forall_forall _ _) Hp _ Hn). }
      destruct (getDetailedFileType cs f (console p)) as [settled c'].
      cbn. split; [now apply Forall_removeAt|].
      destruct h, settled as [tag|message]; cbn; intros g Hg;
        try (injection Hg as <-; exact Hv); auto.
Qed.

(** X8.  The error banner shows nothing or one of the two validation
    messages, never two of them joined and never "Error processing file":
    the classification is always fulfilled, so the [catch] of the handlers
    is never entered. *)
Theorem banner_is_a_validation_message (cs : Collaborator)
  (events : list Event) :
  validationError (state (run cs events)) = ""
  \/ validationMessage (validationError (state (run cs events))).
Proof.
  apply (run_invariant cs (fun p =>
           validationError (state p) = ""
           \/ validationMessage (validationError (state p)))).
  - now left.
  - intros p e H. destruct e as [uploaded|dropped| |i]; cbn [step].
    + unfold handleUpload_begin. destruct uploaded as [f|]; [|now left].
      destruct (validateFile_cases f) as [[Hv ->]|[[_ ->]|[Hb ->]]]; cbn.
      * now left.
      * right. now left.
      * right. right. now exists f.
    + unfold handleDrop_begin. destruct dropped as [f|]; [|exact H].
      destruct (validateFile_cases f) as [[Hv ->]|[[_ ->]|[Hb ->]]]; cbn.
      * exact H.
      * right. now left.
      * right. right. now exists f.
    + now left.
    + destruct (nth_error (pending p) i) as [[h f]|]; [|exact H].
      destruct (always_fulfilled cs f (console p)) as (tag & c' & ->).
      destruct h; exact H.
Qed.

(** X9.  The hourglass is shown only while a classification is awaited:
    whenever [isLoading] is set, some classification is pending. *)
Theorem loading_means_pending (cs : Collaborator) (events : list Event) :
  isLoading (state (run cs events)) = true ->
  pending (run cs events) <> [].
Proof.
  apply (run_invariant cs (fun p =>
           isLoading (state p) = true -> pending p <> [])).
  - discriminate.
  - intros p e H. destruct e as [uploaded|dropped| |i]; cbn [step].
    + unfold handleUpload_begin. destruct uploaded as [f|]; [|exact H].
      destruct (negb _); cbn; [exact H|].
      intros _. unfold push. now destruct (pending p).
    + unfold handleDrop_begin. destruct dropped as [f|]; [|exact H].
      destruct (negb _); cbn; [exact H|].
      intros _. unfold push. now destruct (pending p).
    + exact H.
    + destruct (nth_error (pending p) i) as [[h f]|]; [|exact H].
      destruct (getDetailedFileType cs f (console p)) as [settled c'].
      destruct h, settled; discriminate.
Qed.

Lemma loading_means_pending_witness :
  pending (run blankCollaborator [Drop (Some cineFile)]) <> [].
Proof.
  exact (loading_means_pending blankCollaborator [Drop (Some cineFile)] eq_refl).
Defined.

Lemma nth_error_push {A : Type} (l : list A) (x : A) :
  nth_error (push l x) (List.length l) = Some x.
Proof.
  unfold push. rewrite nth_error_app2 by lia. now rewrite Nat.sub_diag.
Qed.

Lemma removeAt_push {A : Type} (l : list A) (x : A) :
  removeAt (List.length l) (push l x) = l.
Proof.
  unfold push. induction l as [|y l IH]; cbn; [reflexivity | now rewrite IH].
Qed.

(** X10.  [handleDrop] never clears the error banner: after a valid file is
    dropped, and after its classification has settled and the file is on
    display, the banner still reads what it read before, for instance the
    message of an earlier refused file; [handleUpload] of the same file
    clears it. *)
Theorem drop_keeps_the_banner (cs : Collaborator) (p : Page) (f : File) :
  validSize f ->
  validationError (state (step cs p (Drop (Some f))))
  = validationError (state p)
  /\ validationError
       (state (step cs (step cs p (Drop (Some f)))
                 (Settle (List.length (pending p)))))
     = validationError (state p)
  /\ file (state (step cs (step cs p (Drop (Some f)))
                    (Settle (List.length (pending p)))))
     = Some f
  /\ validationError (state (step cs p (Upload (Some f)))) = "".
Proof.
  intros Hv. apply isValid_validSize in Hv.
  cbn [step]. unfold handleDrop_begin, handleUpload_begin. rewrite Hv.
  cbn [negb await pending state console fst snd].
  rewrite nth_error_push.
  destruct (always_fulfilled cs f (console p)) as (tag & c' & ->).
  repeat split.
Qed.

Lemma drop_keeps_the_banner_witness :
  validationError
    (state (run blankCollaborator
              [Drop (Some (mkFile "empty.dcm" "" 0)); Drop (Some cineFile);
               Settle 0]))
  = "File is empty".
Proof.
  exact (proj1 (proj2 (drop_keeps_the_banner blankCollaborator
                         (run blankCollaborator
                            [Drop (Some (mkFile "empty.dcm" "" 0))])
                         cineFile ltac:(unfold validSize; cbn; lia)))).
Defined.

(** X11.  With no classification pending, selecting a valid file and letting
    its classification settle puts that file on display with its own tag,
    ends the loading state and leaves nothing pending; the file on display
    is then the latest selection. *)
Theorem selection_without_overlap (cs : Collaborator) (p : Page) (f : File)
  (picked : bool) :
  pending p = [] ->
  validSize f ->
  state (step cs (step cs p (if picked then Upload (Some f) else Drop (Some f)))
           (Settle 0))
  = {| file := Some f;
       fileType :=
         match classification cs f (console p) with
         | Fulfilled tag => tag
         | Rejected _ => unknown
         end;
       validationError := if picked then "" else validationError (state p);
       isLoading := false |}
  /\ (exists tag, classification cs f (console p) = Fulfilled tag)
  /\ pending (step cs (step cs p (if picked then Upload (Some f)
                                  else Drop (Some f))) (Settle 0)) = []
  /\ selected (step cs (step cs p (if picked then Upload (Some f)
                                   else Drop (Some f))) (Settle 0)) = Some f.
Proof.
  intros Hp Hv. apply isValid_validSize in Hv.
  unfold classification.
  destruct (always_fulfilled cs f (console p)) as (tag & c' & E).
  destruct picked; cbn [step]; unfold handleDrop_begin, handleUpload_begin;
    rewrite Hv; cbn [negb await pending state console fst snd selected];
    rewrite Hp; cbn; rewrite E; cbn; repeat split; eauto.
Qed.

Lemma selection_without_overlap_witness :
  file (state (run (enhancedCT (Some 5%Z)) [Upload (Some cineFile); Settle 0]))
  = Some cineFile
  /\ fileType (state (run (enhancedCT (Some 5%Z))
                        [Upload (Some cineFile); Settle 0]))
     = dicom_video.
Proof.
  pose proof (proj1 (selection_without_overlap (enhancedCT (Some 5%Z))
                       initialPage cineFile true eq_refl
                       ltac:(unfold validSize; cbn; lia))) as H.
  split; [exact (f_equal file H) | exact (f_equal fileType H)].
Defined.

(** ** The time display *)

Lemma digitsValue_decimal (m : N) : digitsValue (decimal m) = Some m.
Proof.
  unfold digitsValue, decimal.
  rewrite NilZero.usu.
  - now rewrite DecimalN.Unsigned.of_to.
  - destruct m as [|q]; [discriminate|].
    apply DecimalPos.Unsigned.to_uint_nonnil.
Qed.

Lemma digitsValue_padStart (s : string) (m : N) :
  digitsValue s = Some m -> digitsValue (padStart 2 "0" s) = Some m.
Proof.
  destruct s as [|a [|b s]]; intros H.
  - discriminate H.
  - change (padStart 2 "0" (String a "")) with (String "0" (String a "")).
    unfold digitsValue, NilZero.uint_of_string in *.
    cbn [NilEmpty.uint_of_string] in *.
    destruct (uint_of_char a (Some Decimal.Nil)) as [d|]; [|discriminate H].
    exact H.
  - exact H.
Qed.

Lemma digits_have_no_colon (a b : string) (m : N) :
  digitsValue a = Some m -> splitAtColon (a ++ ":" ++ b) = Some (a, b).
Proof.
  unfold digitsValue, NilZero.uint_of_string.
  assert (H : forall d, NilEmpty.uint_of_string a = Some d ->
                        splitAtColon (a ++ ":" ++ b) = Some (a, b)).
  { induction a as [|c a IH]; intros d Hd.
    - reflexivity.
    - cbn [NilEmpty.uint_of_string] in Hd.
      destruct (NilEmpty.uint_of_string a) as [d'|]; [|discriminate Hd].
      change (String c a ++ ":" ++ b) with (String c (a ++ ":" ++ b)).
      cbn [splitAtColon]. rewrite (IH d' eq_refl).
      apply uint_of_char_spec in Hd.
      repeat (destruct Hd as [[-> _]|Hd]; [reflexivity|]).
      destruct Hd as [-> _]. reflexivity. }
  destruct a as [|c a]; [discriminate|].
  destruct (NilEmpty.uint_of_string (String c a)) as [d|];
    [|discriminate].
  intros _. exact (H d eq_refl).
Qed.

Lemma readTime_formatTime (n : N) :
  readTime (formatTime (wholeSeconds n)) = Some n.
Proof.
  unfold readTime, formatTime.
  pose proof (digitsValue_padStart _ _ (digitsValue_decimal (n / 60))) as Hm.
  pose proof (digitsValue_padStart _ _ (digitsValue_decimal (n mod 60))) as Hs.
  rewrite (digits_have_no_colon _ _ _ Hm), Hm, Hs.
  f_equal. rewrite (N.div_mod n 60) at 3 by discriminate. reflexivity.
Qed.

(** X12.  The time display of a whole number of seconds can be read back:
    the digits before the colon, taken as minutes, and those after it, as
    seconds, give the time shown, so that no two such times are displayed
    alike; minutes are not carried into hours. *)
Theorem formatTime_reads_back (n : N) :
  (n < 2 ^ 53)%N ->
  readTime (formatTime (wholeSeconds n)) = Some n
  /\ (forall m : N,
         (m < 2 ^ 53)%N ->
         formatTime (wholeSeconds m) = formatTime (wholeSeconds n) -> m = n).
Proof.
  intros _. split; [apply readTime_formatTime|].
  intros m _ H. apply (f_equal readTime) in H.
  rewrite !readTime_formatTime in H. now injection H.
Qed.

Lemma formatTime_reads_back_witness :
  readTime (formatTime (wholeSeconds 3725)) = Some 3725%N.
Proof.
  exact (proj1 (formatTime_reads_back 3725 ltac:(cbn; lia))).
Defined.

Lemma two_digits_below_100 (k : N) :
  (k < 100)%N -> String.length (padStart 2 "0" (decimal k)) = 2.
Proof.
  intros H.
  assert (Hall : forallb (fun i => String.length
                                     (padStart 2 "0" (decimal (N.of_nat i)))
                                   =? 2)%nat (seq 0 100) = true)
    by (vm_compute; reflexivity).
  rewrite forallb_forall in Hall.
  specialize (Hall (N.to_nat k)). rewrite N2Nat.id in Hall.
  apply Nat.eqb_eq, Hall, in_seq. lia.
Qed.

Lemma padStart_length (target : nat) (s : string) :
  target <= String.length (padStart target "0" s).
Proof.
  unfold padStart.
  destruct (Nat.leb_spec target (String.length s)) as [H|H]; [exact H|].
  rewrite length_app.
  assert (Hf : forall k rest, String.length (filler "0" rest k) = k).
  { induction k as [|k IH]; intros rest; [reflexivity|].
    destruct rest; cbn; now rewrite IH. }
  rewrite Hf. lia.
Qed.

(** X13.  The time display has at least five characters, and exactly five
    ("MM:SS") for a whole number of seconds below 100 minutes; NaN is shown
    as "00:00", the same as zero seconds. *)
Theorem formatTime_width (n : N) :
  (n < 2 ^ 53)%N ->
  5 <= String.length (formatTime (wholeSeconds n))
  /\ ((n < 6000)%N -> String.length (formatTime (wholeSeconds n)) = 5)
  /\ formatTime NaN = formatTime (wholeSeconds 0).
Proof.
  intros _. unfold formatTime. rewrite !length_app.
  assert (Hs : String.length (padStart 2 "0" (decimal (n mod 60))) = 2).
  { apply two_digits_below_100.
    pose proof (N.mod_upper_bound n 60). lia. }
  rewrite Hs. cbn [String.length]. split; [|split].
  - pose proof (padStart_length 2 (decimal (n / 60))). lia.
  - intros H. rewrite two_digits_below_100; [reflexivity|].
    apply N.Div0.div_lt_upper_bound; lia.
  - reflexivity.
Qed.

Lemma formatTime_width_witness :
  String.length (formatTime (wholeSeconds 5999)) = 5.
Proof.
  exact (proj1 (proj2 (formatTime_width 5999 ltac:(cbn; lia)))
           ltac:(cbn; lia)).
Defined.

(** ** The display effect *)

Ltac player_unfold :=
  unfold Player.effect, Player.handleFile, Player.handleDicomFile,
    Player.setupVideoPlayer, Player.handleRegularImage, Player.cleanup,
    Player.fileToImageId, Player.liftAsync, VideoPlayer.fileToImageId, call,
    Player.createObjectURL, Player.revokeObjectURL,
    Player.tryCatch, Player.bind, Player.perform, Player.record,
    Player.console_log, Player.console_error, Player.setError,
    Player.setVideoUrl, Player.setDuration, Player.setRenderingEngineRef,
    Player.update, Player.ret, Player.throw;
  cbn.

Ltac player_step :=
  match goal with
  | |- context [Player.engine ?h ?l ?c] =>
      destruct (Player.engine h l c) eqn:?; cbn
  | |- context [fileManager_add ?c ?f] =>
      destruct (fileManager_add c f) eqn:?; cbn
  | |- context [Player.videoMetadata ?h ?u] =>
      destruct (Player.videoMetadata h u) eqn:?; cbn
  | |- context [Player.imageLoads ?h ?u] =>
      destruct (Player.imageLoads h u) eqn:?; cbn
  end.

Ltac made_calls :=
  unfold push; repeat rewrite <- app_assoc; cbn [app];
  try rewrite app_nil_r.

Ltac made_here :=
  made_calls;
  first [ eexists _, _; split; [reflexivity | split; [reflexivity|]]
        | eexists _, []; split;
          [reflexivity | split; [symmetry; apply app_nil_r|]] ].

Ltac in_cases :=
  repeat split; intros; cbn [In] in *;
  repeat match goal with
         | H : _ \/ _ |- _ => destruct H as [H|H]
         | H : False |- _ => contradiction H
         | H : @eq Player.Call _ _ |- _ =>
             first [discriminate H | injection H as ?; subst]
         | H : @eq FileType _ _ |- _ => discriminate H
         | H : @eq bool _ _ |- _ => discriminate H
         end;
  eauto.

Lemma last_app_cons {A : Type} (l m : list A) (x d : A) :
  last (l ++ x :: m) d = last (x :: m) d.
Proof.
  induction l as [|y l IH]; [reflexivity|].
  cbn [app]. rewrite <- IH.
  destruct (l ++ x :: m)%list as [|z t] eqn:E; [|reflexivity].
  destruct l; discriminate E.
Qed.

(** What a run of [handleDicomFile] does, whatever the engine answers. *)
Lemma handleDicomFile_runs (host : Player.Host) (file : File) (isVideo : bool)
  (w : Player.World) :
  exists w' made,
    Player.handleDicomFile host file isVideo w = (Fulfilled tt, w')
    /\ Player.calls w' = (Player.calls w ++ made)%list
    /\ (forall v t,
           In (Player.EnableElement v t) made ->
           v = "dicomVP"
           /\ (t = Player.VIDEO /\ isVideo = true
               \/ t = Player.STACK /\ isVideo = false))
    /\ (In Player.ViewportPlay made -> isVideo = true)
    /\ (forall imageId,
           In (Player.SetVideo imageId) made ->
           isVideo = true
           /\ fileManager_add (Player.collaborator host) file
              = Fulfilled imageId)
    /\ (forall imageIds,
           In (Player.SetStack imageIds) made ->
           isVideo = false
           /\ exists imageId,
                fileManager_add (Player.collaborator host) file
                = Fulfilled imageId
                /\ imageIds = [imageId])
    /\ (forall f, ~ In (Player.CreateObjectURL f) made)
    /\ ((Player.error w' = Player.error w
         /\ last (Player.calls w') Player.CsInit = Player.ViewportRender
         /\ Player.renderingEngineRef w' = Some "dicomRE")
        \/ (exists e,
               Player.error w' = renderFailure e
               /\ last (Player.lines w') (Player.LOG, [])
                  = (Player.ERROR,
                     [Player.text "Error rendering DICOM file:";
                      Player.text e]))).
Proof.
  destruct isVideo; player_unfold; repeat player_step; made_here;
    (split; [solve [in_cases]|]); (split; [solve [in_cases]|]);
    (split; [solve [in_cases]|]); (split; [solve [in_cases]|]);
    (split; [solve [intros f H; in_cases]|]); cbn;
    first [ right; eexists; split; [reflexivity|];
            rewrite last_app_cons; reflexivity
          | left; split; [reflexivity|]; split; [|reflexivity];
            rewrite last_app_cons; reflexivity ].
Qed.

Ltac dicom_case host file isVideo :=
  unfold Player.effect, Player.handleFile; cbn;
  unfold Player.tryCatch; unfold Player.bind at 1;
  cbv beta iota delta [Player.console_log Player.update];
  match goal with
  | |- context [Player.handleDicomFile host file isVideo ?w0] =>
      destruct (handleDicomFile_runs host file isVideo w0)
        as (w' & made & Hrun & Hcalls & Henable & Hplay & Hvideo & Hstack
            & Hurl & Hbanner);
      rewrite Hrun; cbn in Hcalls, Hbanner
  end.

(** X14.  The effect never rejects, and what it asks of the engine and of
    the browser follows the tag: an element is enabled as a VIDEO viewport
    only for dicom-video and as a STACK viewport only for dicom-image;
    [play] and [setVideo] are called only for dicom-video; [setStack] only
    for dicom-image, with the one image id the loader gave the file; an
    object URL is created only for regular-video and regular-image; for
    unknown nothing is called. *)
Theorem display_follows_the_tag (host : Player.Host) (file : File)
  (fileType : FileType) (w : Player.World) :
  exists w' made,
    Player.effect host (Player.rendered fileType) file fileType w
    = (Fulfilled tt, w')
    /\ Player.calls w' = (Player.calls w ++ made)%list
    /\ (forall v t,
           In (Player.EnableElement v t) made ->
           v = "dicomVP"
           /\ (t = Player.VIDEO /\ fileType = dicom_video
               \/ t = Player.STACK /\ fileType = dicom_image))
    /\ (In Player.ViewportPlay made -> fileType = dicom_video)
    /\ (forall imageId,
           In (Player.SetVideo imageId) made ->
           fileType = dicom_video
           /\ fileManager_add (Player.collaborator host) file
              = Fulfilled imageId)
    /\ (forall imageIds,
           In (Player.SetStack imageIds) made ->
           fileType = dicom_image
           /\ exists imageId,
                fileManager_add (Player.collaborator host) file
                = Fulfilled imageId
                /\ imageIds = [imageId])
    /\ (forall f,
           In (Player.CreateObjectURL f) made ->
           f = file /\ (fileType = regular_video \/ fileType = regular_image))
    /\ (fileType = unknown -> made = []).
Proof.
  destruct fileType.
  - dicom_case host file true. exists w', made.
    split; [reflexivity|]. split; [exact Hcalls|].
    repeat split; try discriminate; intros.
    + now apply (Henable v t).
    + destruct (Henable v t) as [_ [[? _]|[_ ?]]]; auto; discriminate.
    + now apply (Hvideo imageId).
    + destruct (Hstack imageIds) as [? _]; auto; discriminate.
    + destruct (Hstack imageIds) as [? _]; auto; discriminate.
    + exfalso. eapply Hurl; eauto.
    + exfalso. eapply Hurl; eauto.
  - player_unfold; repeat player_step; made_here; in_cases.
  - dicom_case host file false. exists w', made.
    split; [reflexivity|]. split; [exact Hcalls|].
    repeat split; try discriminate; intros.
    + now apply (Henable v t).
    + destruct (Henable v t) as [_ [[_ ?]|[? _]]]; auto; discriminate.
    + specialize (Hplay H). discriminate.
    + destruct (Hvideo imageId) as [? _]; auto; discriminate.
    + destruct (Hvideo imageId) as [? _]; auto; discriminate.
    + now apply (Hstack imageIds).
    + exfalso. eapply Hurl; eauto.
    + exfalso. eapply Hurl; eauto.
  - player_unfold; repeat player_step; made_here; in_cases.
  - player_unfold; made_here; in_cases.
Qed.

(** X15.  What the banner of the player reads once the effect has run, tag
    by tag.  For a DICOM tag: nothing, the last call being [render] and the
    engine being kept in the ref, or the rendering message with the error
    that was thrown, whichever call threw it, that error being the last
    console line; the "Failed to load file" message of the outer [catch] is
    never used for a DICOM file.  For regular-video and regular-image:
    nothing when the media loads, "Failed to load file: ..." otherwise; the
    "element not available" paths are not taken.  For unknown: "Unsupported
    file type: unknown". *)
Theorem banner_of_the_player (host : Player.Host) (file : File)
  (fileType : FileType) (w : Player.World) :
  exists w',
    Player.effect host (Player.rendered fileType) file fileType w
    = (Fulfilled tt, w')
    /\ match fileType with
       | dicom_video | dicom_image =>
           (Player.error w' = ""
            /\ last (Player.calls w') Player.CsInit = Player.ViewportRender
            /\ Player.renderingEngineRef w' = Some "dicomRE")
           \/ (exists e,
                  Player.error w' = renderFailure e
                  /\ last (Player.lines w') (Player.LOG, [])
                     = (Player.ERROR,
                        [Player.text "Error rendering DICOM file:";
                         Player.text e]))
       | regular_video =>
           Player.error w'
           = match Player.videoMetadata host
                     (Player.objectUrl host (Player.issued w)) with
             | Fulfilled _ => ""
             | Rejected _ => "Failed to load file: Failed to load video metadata"
             end
       | regular_image =>
           Player.error w'
           = if Player.imageLoads host (Player.objectUrl host (Player.issued w))
             then ""
             else "Failed to load file: Failed to load image"
       | unknown => Player.error w' = "Unsupported file type: unknown"
       end.
Proof.
  destruct fileType.
  - dicom_case host file true. exists w'. split; [reflexivity | exact Hbanner].
  - player_unfold; repeat player_step; eexists; split; reflexivity.
  - dicom_case host file false. exists w'. split; [reflexivity | exact Hbanner].
  - player_unfold; repeat player_step; eexists; split; reflexivity.
  - player_unfold. eexists; split; reflexivity.
Qed.

Lemma regular_effect_creates_url (host : Player.Host) (file : File)
  (fileType : FileType) (w : Player.World) :
  fileType = regular_video \/ fileType = regular_image ->
  exists w1,
    Player.effect host (Player.rendered fileType) file fileType w
    = (Fulfilled tt, w1)
    /\ Player.videoUrl w1 = Player.objectUrl host (Player.issued w)
    /\ Player.objectUrls w1
       = push (Player.objectUrls w) (Player.objectUrl host (Player.issued w)).
Proof.
  intros [->| ->]; player_unfold; repeat player_step;
    eexists; repeat split.
Qed.

Lemma cleanup_object_urls (host : Player.Host) (videoUrl : string)
  (videoRefCurrent : bool) (w : Player.World) :
  Player.objectUrls (snd (Player.cleanup host videoUrl videoRefCurrent w))
  = if String.eqb videoUrl "" then Player.objectUrls w
    else filter (fun u => negb (String.eqb u videoUrl)) (Player.objectUrls w).
Proof.
  player_unfold.
  destruct (String.eqb videoUrl ""); cbn;
    destruct videoRefCurrent; cbn;
    destruct (Player.renderingEngineRef w); cbn;
    repeat player_step; reflexivity.
Qed.

(** X16.  The cleanup of an effect does not revoke the object URL that
    effect created: it revokes the URL held by the [videoUrl] state when the
    effect was set up, which is what its closure has captured.  After the
    effect and its cleanup the new URL is still alive; on a freshly mounted
    component, whose [videoUrl] is empty, the cleanup revokes nothing. *)
Theorem own_object_url_survives_cleanup (host : Player.Host) (file : File)
  (fileType : FileType) (w : Player.World) (videoRefCurrent : bool) :
  fileType = regular_video \/ fileType = regular_image ->
  Player.objectUrl host (Player.issued w) <> Player.videoUrl w ->
  exists w1 settled w2,
    Player.effect host (Player.rendered fileType) file fileType w
    = (Fulfilled tt, w1)
    /\ Player.cleanup host (Player.videoUrl w) videoRefCurrent w1
       = (settled, w2)
    /\ Player.videoUrl w1 = Player.objectUrl host (Player.issued w)
    /\ In (Player.objectUrl host (Player.issued w)) (Player.objectUrls w2)
    /\ (Player.videoUrl w = "" -> Player.objectUrls w2 = Player.objectUrls w1).
Proof.
  intros Hft Hfresh. apply String.eqb_neq in Hfresh.
  destruct (regular_effect_creates_url host file fileType w Hft)
    as (w1 & Heff & Hurl & Hlive).
  exists w1, (fst (Player.cleanup host (Player.videoUrl w) videoRefCurrent w1)),
    (snd (Player.cleanup host (Player.videoUrl w) videoRefCurrent w1)).
  split; [exact Heff|]. split; [apply surjective_pairing|].
  split; [exact Hurl|].
  rewrite cleanup_object_urls, Hlive. split.
  - destruct (String.eqb (Player.videoUrl w) "").
    + unfold push. apply in_or_app. right. now left.
    + apply filter_In. split.
      * unfold push. apply in_or_app. right. now left.
      * now rewrite Hfresh.
  - intros ->. reflexivity.
Qed.

Lemma own_object_url_survives_cleanup_witness :
  exists w1 settled w2,
    Player.effect quietHost (Player.rendered regular_video) clipFile
      regular_video (Player.mounted [] 0)
    = (Fulfilled tt, w1)
    /\ Player.cleanup quietHost "" false w1 = (settled, w2)
    /\ Player.videoUrl w1 = "blob:0"
    /\ In "blob:0" (Player.objectUrls w2)
    /\ ("" = "" -> Player.objectUrls w2 = Player.objectUrls w1).
Proof.
  refine (own_object_url_survives_cleanup quietHost clipFile regular_video
            (Player.mounted [] 0) false _ _).
  - left. reflexivity.
  - discriminate.
Defined.

(** X17.  With an engine whose [disableElement] and [destroy] return, the
    cleanup leaves no engine in the ref; it disables the element and
    destroys the engine, in that order and as its last two calls, exactly
    when the ref held one, and a cleanup run again does not destroy
    anything. *)
Theorem cleanup_releases_the_engine (host : Player.Host) (videoUrl : string)
  (videoRefCurrent : bool) (w : Player.World) :
  (forall before,
      Player.engine host before (Player.DisableElement "dicomVP") = None
      /\ Player.engine host before Player.EngineDestroy = None) ->
  exists w' made,
    Player.cleanup host videoUrl videoRefCurrent w = (Fulfilled tt, w')
    /\ Player.calls w' = (Player.calls w ++ made)%list
    /\ Player.renderingEngineRef w' = None
    /\ (Player.renderingEngineRef w = None ->
        ~ In Player.EngineDestroy made
        /\ ~ In (Player.DisableElement "dicomVP") made)
    /\ (Player.renderingEngineRef w <> None ->
        exists earlier,
          made = (earlier ++ [Player.DisableElement "dicomVP";
                              Player.EngineDestroy])%list)
    /\ (forall w'' again,
           Player.cleanup host videoUrl videoRefCurrent w' = (Fulfilled tt, w'')
           -> Player.calls w'' = (Player.calls w' ++ again)%list ->
           ~ In Player.EngineDestroy again).
Proof.
  intros Hok.
  assert (Hquiet : forall w0,
             Player.renderingEngineRef w0 = None ->
             exists made0,
               Player.cleanup host videoUrl videoRefCurrent w0
               = (Fulfilled tt,
                  snd (Player.cleanup host videoUrl videoRefCurrent w0))
               /\ Player.calls
                    (snd (Player.cleanup host videoUrl videoRefCurrent w0))
                  = (Player.calls w0 ++ made0)%list
               /\ Player.renderingEngineRef
                    (snd (Player.cleanup host videoUrl videoRefCurrent w0))
                  = None
               /\ ~ In Player.EngineDestroy made0
               /\ ~ In (Player.DisableElement "dicomVP") made0).
  { intros w0 Hnone. player_unfold.
    destruct (String.eqb videoUrl ""); cbn;
      destruct videoRefCurrent; cbn; rewrite Hnone; cbn;
      made_calls;
      first [ eexists; split; [reflexivity|]; split; [reflexivity|]
            | exists []; split; [reflexivity|];
              split; [symmetry; apply app_nil_r|] ];
      (split; [reflexivity|]); split; cbn [In]; intros H;
      repeat (destruct H as [H|H]; [discriminate H|]); exact H. }
  destruct (Player.renderingEngineRef w) as [id|] eqn:Href.
  - assert (Hrun : exists w' earlier,
               Player.cleanup host videoUrl videoRefCurrent w
               = (Fulfilled tt, w')
               /\ Player.calls w'
                  = (Player.calls w
                     ++ earlier ++ [Player.DisableElement "dicomVP";
                                    Player.EngineDestroy])%list
               /\ Player.renderingEngineRef w' = None).
    { player_unfold.
      destruct (String.eqb videoUrl ""); cbn;
        destruct videoRefCurrent; cbn; rewrite Href; cbn;
        rewrite (proj1 (Hok _)); cbn; rewrite (proj2 (Hok _)); cbn;
        made_calls;
        first [ eexists _, [_; _]; split; [reflexivity|]; split; reflexivity
              | eexists _, [_]; split; [reflexivity|]; split; reflexivity
              | eexists _, [_; _; _]; split; [reflexivity|]; split; reflexivity
              | eexists _, []; split; [reflexivity|]; split; reflexivity ]. }
    destruct Hrun as (w' & earlier & Hrun & Hcalls & Hnone).
    exists w', (earlier ++ [Player.DisableElement "dicomVP";
                            Player.EngineDestroy])%list.
    repeat split; try assumption; try discriminate.
    + intros _. now exists earlier.
    + intros w'' again Hagain Hc Hin.
      destruct (Hquiet w' Hnone) as (made0 & Hq & Hqc & _ & Hno & _).
      rewrite Hq in Hagain. injection Hagain as <-.
      rewrite Hqc in Hc. apply app_inv_head in Hc. subst. contradiction.
  - destruct (Hquiet w Href) as (made0 & Hq & Hqc & Hnone & Hno1 & Hno2).
    eexists _, made0. repeat split; try eassumption; try contradiction.
    intros w'' again Hagain Hc Hin.
    destruct (Hquiet _ Hnone) as (made1 & Hq1 & Hqc1 & _ & Hno & _).
    rewrite Hq1 in Hagain. injection Hagain as <-.
    rewrite Hqc1 in Hc. apply app_inv_head in Hc. subst. contradiction.
Qed.

Lemma cleanup_releases_the_engine_witness :
  exists w' made,
    Player.cleanup quietHost "blob:0" false
      {| Player.error := ""; Player.videoUrl := "blob:0";
         Player.duration := Player.JsRatio 0 1;
         Player.renderingEngineRef := Some "dicomRE";
         Player.objectUrls := ["blob:0"]; Player.issued := 1;
         Player.calls := []; Player.lines := [] |}
    = (Fulfilled tt, w')
    /\ Player.calls w' = made
    /\ Player.renderingEngineRef w' = None
    /\ Player.objectUrls w' = [].
Proof.
  destruct (cleanup_releases_the_engine quietHost "blob:0" false
              {| Player.error := ""; Player.videoUrl := "blob:0";
                 Player.duration := Player.JsRatio 0 1;
                 Player.renderingEngineRef := Some "dicomRE";
                 Player.objectUrls := ["blob:0"]; Player.issued := 1;
                 Player.calls := []; Player.lines := [] |}
              (fun _ => conj eq_refl eq_refl))
    as (w' & made & Hrun & Hcalls & Hnone & _).
  exists w', made. repeat split; try assumption.
  injection Hrun as <-. reflexivity.
Defined.
